(** * The dxtbx beam model (src/dxtbx/model/beam.h)

    A shallow embedding of the classes [Beam] and [PolychromaticBeam] and
    of their comparison operators.

    Conventions of the embedding:
    - a C++ [double] is a real number of [R] in the main development.  The
      properties are stated through the tests and the expressions the code
      computes ([0 < length v], [v / length v], [|x - y| <= eps]), so that
      they read the same when the operations are those of binary64;
    - where underflow, overflow or rounding decides what the code does, the
      methods concerned are given a second time over binary64 floats, in
      module [Double], and evaluated there;
    - a method that can throw returns a [result]; a method that mutates
      the object returns the new object;
    - an object is its dynamic class (a constructor of [BeamBase]) together
      with the data members of class [Beam], which [PolychromaticBeam]
      inherits; a virtual call is a match on the dynamic class. *)

From Stdlib Require Import Reals Lra List String Bool Arith Lia.
From Stdlib Require Floats.PrimFloat.
Import ListNotations.

Local Open Scope R_scope.

(** ** Comparisons of doubles, as booleans *)

Definition Rleb (x y : R) : bool := if Rle_dec x y then true else false.
Definition Rgtb (x y : R) : bool := if Rlt_dec y x then true else false.
Definition Rneb (x y : R) : bool := if Req_dec_T x y then false else true.

(** ** scitbx::vec3<double>

    The 3-vector type is an external collaborator (scitbx).  Its operations
    are written out component by component, the way scitbx defines them:
    [length] is the square root of the sum of squares and [normalize]
    divides by the length. *)

Record vec3 : Type := mk_vec3 { vx : R; vy : R; vz : R }.

Module Vec3.

Definition dot (a b : vec3) : R :=
  vx a * vx b + vy a * vy b + vz a * vz b.

Definition length_sq (a : vec3) : R := dot a a.

Definition length (a : vec3) : R := sqrt (length_sq a).

(** [v / s] *)
Definition div (a : vec3) (s : R) : vec3 :=
  mk_vec3 (vx a / s) (vy a / s) (vz a / s).

(** [v * s] *)
Definition scale (a : vec3) (s : R) : vec3 :=
  mk_vec3 (vx a * s) (vy a * s) (vz a * s).

(** unary [-v] *)
Definition neg (a : vec3) : vec3 := mk_vec3 (- vx a) (- vy a) (- vz a).

Definition normalize (a : vec3) : vec3 := div a (length a).

(** [v[i]] for [i < 3] *)
Definition elem (a : vec3) (i : nat) : R :=
  match i with
  | O => vx a
  | S O => vy a
  | _ => vz a
  end.

Definition zero : vec3 := mk_vec3 0 0 0.

End Vec3.

(** ** Errors

    [DXTBX_ASSERT(cond)] and [throw DXTBX_ERROR(msg)] both raise
    [dxtbx::error]; the embedding keeps them apart, since the first is how
    an invalid argument is reported and the second how an unsupported
    operation is. *)

Inductive error : Type :=
| assertion_failure (cond : string)   (* DXTBX_ASSERT(cond) failed *)
| dxtbx_error (msg : string).         (* throw DXTBX_ERROR(msg) *)

Inductive result (A : Type) : Type :=
| Ok (a : A)
| Throw (e : error).
Arguments Ok {A} a.
Arguments Throw {A} e.

Definition bind {A B : Type} (c : result A) (k : A -> result B) : result B :=
  match c with
  | Ok a => k a
  | Throw e => Throw e
  end.

Declare Scope result_scope.
Delimit Scope result_scope with result.
Notation "x <- c ;; k" := (bind c (fun x => k))
  (at level 61, c at next level, right associativity) : result_scope.
Notation "c ;;; k" := (bind c (fun _ => k))
  (at level 61, right associativity) : result_scope.
Local Open Scope result_scope.

Definition DXTBX_ASSERT (cond : bool) (text : string) : result unit :=
  if cond then Ok tt else Throw (assertion_failure text).

(** [a && b] of C++ where either side may throw: [b] is evaluated only
    when [a] has returned true. *)
Definition and_then (a b : result bool) : result bool :=
  x <- a ;; if x then b else Ok false.

Infix "&&>" := and_then (at level 40, left associativity) : result_scope.

(** ** Data members *)

Inductive Probe : Type := xray | electron | neutron.

Definition Probe_eqb (p q : Probe) : bool :=
  match p, q with
  | xray, xray | electron, electron | neutron, neutron => true
  | _, _ => false
  end.

(** The data members of class [Beam] (protected and private ones alike);
    [PolychromaticBeam] derives from [Beam] and has them all. *)
Record BeamData : Type := mk_BeamData {
  direction_ : vec3;
  divergence_ : R;
  sigma_divergence_ : R;
  polarization_normal_ : vec3;
  polarization_fraction_ : R;
  flux_ : R;
  transmission_ : R;
  probe_ : Probe;
  sample_to_source_distance_ : R;
  wavelength_ : R;
  s0_at_scan_points_ : list vec3
}.

(** An object seen through [BeamBase &]: its dynamic class and its data. *)
Inductive BeamBase : Type :=
| Beam_obj (d : BeamData)                (* dynamic class Beam *)
| PolychromaticBeam_obj (d : BeamData).  (* dynamic class PolychromaticBeam *)

Definition data (b : BeamBase) : BeamData :=
  match b with
  | Beam_obj d => d
  | PolychromaticBeam_obj d => d
  end.

(** Rebuild an object of the same dynamic class around new data. *)
Definition with_data (b : BeamBase) (d : BeamData) : BeamBase :=
  match b with
  | Beam_obj _ => Beam_obj d
  | PolychromaticBeam_obj _ => PolychromaticBeam_obj d
  end.

(** Field updates. *)
Definition upd_direction (d : BeamData) (v : vec3) : BeamData :=
  mk_BeamData v (divergence_ d) (sigma_divergence_ d) (polarization_normal_ d)
    (polarization_fraction_ d) (flux_ d) (transmission_ d) (probe_ d)
    (sample_to_source_distance_ d) (wavelength_ d) (s0_at_scan_points_ d).

Definition upd_divergence (d : BeamData) (x : R) : BeamData :=
  mk_BeamData (direction_ d) x (sigma_divergence_ d) (polarization_normal_ d)
    (polarization_fraction_ d) (flux_ d) (transmission_ d) (probe_ d)
    (sample_to_source_distance_ d) (wavelength_ d) (s0_at_scan_points_ d).

Definition upd_sigma_divergence (d : BeamData) (x : R) : BeamData :=
  mk_BeamData (direction_ d) (divergence_ d) x (polarization_normal_ d)
    (polarization_fraction_ d) (flux_ d) (transmission_ d) (probe_ d)
    (sample_to_source_distance_ d) (wavelength_ d) (s0_at_scan_points_ d).

Definition upd_polarization_normal (d : BeamData) (v : vec3) : BeamData :=
  mk_BeamData (direction_ d) (divergence_ d) (sigma_divergence_ d) v
    (polarization_fraction_ d) (flux_ d) (transmission_ d) (probe_ d)
    (sample_to_source_distance_ d) (wavelength_ d) (s0_at_scan_points_ d).

Definition upd_polarization_fraction (d : BeamData) (x : R) : BeamData :=
  mk_BeamData (direction_ d) (divergence_ d) (sigma_divergence_ d)
    (polarization_normal_ d) x (flux_ d) (transmission_ d) (probe_ d)
    (sample_to_source_distance_ d) (wavelength_ d) (s0_at_scan_points_ d).

Definition upd_flux (d : BeamData) (x : R) : BeamData :=
  mk_BeamData (direction_ d) (divergence_ d) (sigma_divergence_ d)
    (polarization_normal_ d) (polarization_fraction_ d) x (transmission_ d)
    (probe_ d) (sample_to_source_distance_ d) (wavelength_ d)
    (s0_at_scan_points_ d).

Definition upd_transmission (d : BeamData) (x : R) : BeamData :=
  mk_BeamData (direction_ d) (divergence_ d) (sigma_divergence_ d)
    (polarization_normal_ d) (polarization_fraction_ d) (flux_ d) x
    (probe_ d) (sample_to_source_distance_ d) (wavelength_ d)
    (s0_at_scan_points_ d).

Definition upd_probe (d : BeamData) (p : Probe) : BeamData :=
  mk_BeamData (direction_ d) (divergence_ d) (sigma_divergence_ d)
    (polarization_normal_ d) (polarization_fraction_ d) (flux_ d)
    (transmission_ d) p (sample_to_source_distance_ d) (wavelength_ d)
    (s0_at_scan_points_ d).

Definition upd_sample_to_source_distance (d : BeamData) (x : R) : BeamData :=
  mk_BeamData (direction_ d) (divergence_ d) (sigma_divergence_ d)
    (polarization_normal_ d) (polarization_fraction_ d) (flux_ d)
    (transmission_ d) (probe_ d) x (wavelength_ d) (s0_at_scan_points_ d).

Definition upd_wavelength (d : BeamData) (x : R) : BeamData :=
  mk_BeamData (direction_ d) (divergence_ d) (sigma_divergence_ d)
    (polarization_normal_ d) (polarization_fraction_ d) (flux_ d)
    (transmission_ d) (probe_ d) (sample_to_source_distance_ d) x
    (s0_at_scan_points_ d).

Definition upd_s0_at_scan_points (d : BeamData) (l : list vec3) : BeamData :=
  mk_BeamData (direction_ d) (divergence_ d) (sigma_divergence_ d)
    (polarization_normal_ d) (polarization_fraction_ d) (flux_ d)
    (transmission_ d) (probe_ d) (sample_to_source_distance_ d)
    (wavelength_ d) l.

(** ** Class Beam: constructors *)

Definition eps_default : R := 1e-6.

(** [Beam()] *)
Definition Beam_new : BeamData :=
  mk_BeamData (mk_vec3 0 0 1) 0 0 (mk_vec3 0 1 0) 0.999 0 1 xray 0 0 [].

(** [Beam(vec3<double> s0)] *)
Definition Beam_new_s0 (s0 : vec3) : result BeamData :=
  DXTBX_ASSERT (Rgtb (Vec3.length s0) 0) "s0.length() > 0" ;;;
  Ok (mk_BeamData (Vec3.neg (Vec3.normalize s0)) 0 0 (mk_vec3 0 1 0) 0.999 0 1
        xray 0 (1 / Vec3.length s0) []).

(** [Beam(vec3<double> direction, double wavelength)] *)
Definition Beam_new_direction (direction : vec3) (wavelength : R)
  : result BeamData :=
  DXTBX_ASSERT (Rgtb (Vec3.length direction) 0) "direction.length() > 0" ;;;
  Ok (mk_BeamData (Vec3.normalize direction) 0 0 (mk_vec3 0 1 0) 0.999 0 1
        xray 0 wavelength []).

(** [Beam(vec3<double> s0, double divergence, double sigma_divergence)] *)
Definition Beam_new_s0_divergence (s0 : vec3) (divergence sigma_divergence : R)
  : result BeamData :=
  DXTBX_ASSERT (Rgtb (Vec3.length s0) 0) "s0.length() > 0" ;;;
  Ok (mk_BeamData (Vec3.neg (Vec3.normalize s0)) divergence sigma_divergence
        (mk_vec3 0 1 0) 0.999 0 1 xray 0 (1 / Vec3.length s0) []).

(** [Beam(direction, wavelength, divergence, sigma_divergence)] *)
Definition Beam_new_direction_divergence (direction : vec3)
    (wavelength divergence sigma_divergence : R) : result BeamData :=
  DXTBX_ASSERT (Rgtb (Vec3.length direction) 0) "direction.length() > 0" ;;;
  Ok (mk_BeamData (Vec3.normalize direction) divergence sigma_divergence
        (mk_vec3 0 1 0) 0.999 0 1 xray 0 wavelength []).

(** [Beam(direction, wavelength, divergence, sigma_divergence,
    polarization_normal, polarization_fraction, flux, transmission, probe)] *)
Definition Beam_new_all (direction : vec3)
    (wavelength divergence sigma_divergence : R) (polarization_normal : vec3)
    (polarization_fraction flux transmission : R) (probe : Probe)
  : result BeamData :=
  DXTBX_ASSERT (Rgtb (Vec3.length direction) 0) "direction.length() > 0" ;;;
  Ok (mk_BeamData (Vec3.normalize direction) divergence sigma_divergence
        polarization_normal polarization_fraction flux transmission probe 0
        wavelength []).

(** [Beam(direction, wavelength, divergence, sigma_divergence,
    polarization_normal, polarization_fraction, flux, transmission, probe,
    sample_to_source_distance)] *)
Definition Beam_new_all_distance (direction : vec3)
    (wavelength divergence sigma_divergence : R) (polarization_normal : vec3)
    (polarization_fraction flux transmission : R) (probe : Probe)
    (sample_to_source_distance : R) : result BeamData :=
  DXTBX_ASSERT (Rgtb (Vec3.length direction) 0) "direction.length() > 0" ;;;
  Ok (mk_BeamData (Vec3.normalize direction) divergence sigma_divergence
        polarization_normal polarization_fraction flux transmission probe
        sample_to_source_distance wavelength []).

(** ** Class Beam: accessors and mutators

    A method of class [Beam] takes the data members of [this]; it returns a
    [result] when its body can throw. *)

Definition Beam_get_sample_to_source_direction (d : BeamData) : vec3 :=
  direction_ d.

Definition Beam_get_wavelength (d : BeamData) : R := wavelength_ d.

Definition Beam_get_divergence (d : BeamData) : R := divergence_ d.

Definition Beam_get_sigma_divergence (d : BeamData) : R := sigma_divergence_ d.

Definition Beam_set_direction (d : BeamData) (direction : vec3)
  : result BeamData :=
  DXTBX_ASSERT (Rgtb (Vec3.length direction) 0) "direction.length() > 0" ;;;
  Ok (upd_direction d (Vec3.normalize direction)).

Definition Beam_set_wavelength (d : BeamData) (wavelength : R) : BeamData :=
  upd_wavelength d wavelength.

(** [return -direction_ * 1.0 / wavelength_;] *)
Definition Beam_get_s0 (d : BeamData) : result vec3 :=
  DXTBX_ASSERT (Rneb (wavelength_ d) 0) "wavelength_ != 0.0" ;;;
  Ok (Vec3.div (Vec3.scale (Vec3.neg (direction_ d)) 1) (wavelength_ d)).

Definition Beam_set_s0 (d : BeamData) (s0 : vec3) : result BeamData :=
  DXTBX_ASSERT (Rgtb (Vec3.length s0) 0) "s0.length() > 0" ;;;
  let d1 := upd_direction d (Vec3.neg (Vec3.normalize s0)) in
  Ok (upd_wavelength d1 (1 / Vec3.length s0)).

Definition Beam_get_unit_s0 (d : BeamData) : vec3 := Vec3.neg (direction_ d).

Definition Beam_set_unit_s0 (d : BeamData) (unit_s0 : vec3) : result BeamData :=
  DXTBX_ASSERT (Rgtb (Vec3.length unit_s0) 0) "unit_s0.length() > 0" ;;;
  Ok (upd_direction d (Vec3.neg (Vec3.normalize unit_s0))).

Definition Beam_set_divergence (d : BeamData) (divergence : R) : BeamData :=
  upd_divergence d divergence.

Definition Beam_set_sigma_divergence (d : BeamData) (sigma_divergence : R)
  : BeamData :=
  upd_sigma_divergence d sigma_divergence.

Definition Beam_get_polarization_normal (d : BeamData) : vec3 :=
  polarization_normal_ d.

Definition Beam_get_polarization_fraction (d : BeamData) : R :=
  polarization_fraction_ d.

Definition Beam_set_polarization_normal (d : BeamData)
    (polarization_normal : vec3) : BeamData :=
  upd_polarization_normal d polarization_normal.

Definition Beam_set_polarization_fraction (d : BeamData)
    (polarization_fraction : R) : BeamData :=
  upd_polarization_fraction d polarization_fraction.

Definition Beam_set_flux (d : BeamData) (flux : R) : BeamData :=
  upd_flux d flux.

Definition Beam_set_transmission (d : BeamData) (transmission : R) : BeamData :=
  upd_transmission d transmission.

Definition Beam_get_flux (d : BeamData) : R := flux_ d.

Definition Beam_get_transmission (d : BeamData) : R := transmission_ d.

Definition Beam_get_num_scan_points (d : BeamData) : nat :=
  List.length (s0_at_scan_points_ d).

Definition Beam_set_s0_at_scan_points (d : BeamData) (s0 : list vec3)
  : BeamData :=
  upd_s0_at_scan_points d s0.

Definition Beam_get_s0_at_scan_points (d : BeamData) : list vec3 :=
  s0_at_scan_points_ d.

Definition Beam_get_s0_at_scan_point (d : BeamData) (index : nat)
  : result vec3 :=
  DXTBX_ASSERT (index <? List.length (s0_at_scan_points_ d))%nat
    "index < s0_at_scan_points_.size()" ;;;
  Ok (nth index (s0_at_scan_points_ d) Vec3.zero).

Definition Beam_get_probe (d : BeamData) : Probe := probe_ d.

Definition Beam_set_probe (d : BeamData) (probe : Probe) : BeamData :=
  upd_probe d probe.

Definition Beam_reset_scan_points (d : BeamData) : BeamData :=
  upd_s0_at_scan_points d [].

Definition Beam_get_sample_to_source_distance (d : BeamData) : R :=
  sample_to_source_distance_ d.

Definition Beam_set_sample_to_source_distance (d : BeamData)
    (sample_to_source_distance : R) : result BeamData :=
  DXTBX_ASSERT (Rleb 0 sample_to_source_distance)
    "sample_to_source_distance >= 0." ;;;
  Ok (upd_sample_to_source_distance d sample_to_source_distance).

(** ** Class PolychromaticBeam: the overriding methods

    Each one throws; the unreachable [return] after the [throw] is not
    modelled. *)

Definition no_fixed_wavelength : string :=
  "PolychromaticBeam has no fixed wavelength".
Definition no_fixed_s0 : string := "PolychromaticBeam has no fixed s0".

Definition PolychromaticBeam_get_wavelength (d : BeamData) : result R :=
  Throw (dxtbx_error no_fixed_wavelength).

Definition PolychromaticBeam_set_wavelength (d : BeamData) (wavelength : R)
  : result BeamData :=
  Throw (dxtbx_error no_fixed_wavelength).

Definition PolychromaticBeam_get_s0 (d : BeamData) : result vec3 :=
  Throw (dxtbx_error no_fixed_s0).

Definition PolychromaticBeam_set_s0 (d : BeamData) (s0 : vec3)
  : result BeamData :=
  Throw (dxtbx_error no_fixed_s0).

Definition PolychromaticBeam_get_num_scan_points (d : BeamData) : result nat :=
  Throw (dxtbx_error no_fixed_s0).

Definition PolychromaticBeam_set_s0_at_scan_points (d : BeamData)
    (s0 : list vec3) : result BeamData :=
  Throw (dxtbx_error no_fixed_s0).

Definition PolychromaticBeam_get_s0_at_scan_points (d : BeamData)
  : result (list vec3) :=
  Throw (dxtbx_error no_fixed_s0).

Definition PolychromaticBeam_get_s0_at_scan_point (d : BeamData) (index : nat)
  : result vec3 :=
  Throw (dxtbx_error no_fixed_s0).

Definition PolychromaticBeam_reset_scan_points (d : BeamData)
  : result BeamData :=
  Throw (dxtbx_error no_fixed_s0).

(** ** Class PolychromaticBeam: constructors

    Each runs the base constructor [Beam()] first and then its own body;
    the setters it calls are the ones of class [Beam]. *)

(** [PolychromaticBeam()] *)
Definition PolychromaticBeam_new : result BeamData :=
  let d := Beam_new in
  d <- Beam_set_direction d (mk_vec3 0 0 1) ;;
  let d := Beam_set_divergence d 0 in
  let d := Beam_set_sigma_divergence d 0 in
  let d := Beam_set_polarization_normal d (mk_vec3 0 1 0) in
  let d := Beam_set_polarization_fraction d 0.5 in
  let d := Beam_set_flux d 0 in
  let d := Beam_set_transmission d 1 in
  let d := Beam_set_probe d xray in
  Beam_set_sample_to_source_distance d 0.

(** [PolychromaticBeam(vec3<double> direction)] *)
Definition PolychromaticBeam_new_direction (direction : vec3)
  : result BeamData :=
  let d := Beam_new in
  DXTBX_ASSERT (Rgtb (Vec3.length direction) 0) "direction.length() > 0" ;;;
  let d := upd_direction d (Vec3.normalize direction) in
  let d := Beam_set_divergence d 0 in
  let d := Beam_set_sigma_divergence d 0 in
  let d := Beam_set_polarization_normal d (mk_vec3 0 1 0) in
  let d := Beam_set_polarization_fraction d 0.5 in
  let d := Beam_set_flux d 0 in
  let d := Beam_set_transmission d 1 in
  let d := Beam_set_probe d xray in
  Beam_set_sample_to_source_distance d 0.

(** [PolychromaticBeam(vec3<double> direction,
    double sample_to_source_distance)] *)
Definition PolychromaticBeam_new_direction_distance (direction : vec3)
    (sample_to_source_distance : R) : result BeamData :=
  let d := Beam_new in
  DXTBX_ASSERT (Rgtb (Vec3.length direction) 0) "direction.length() > 0" ;;;
  let d := upd_direction d (Vec3.normalize direction) in
  d <- Beam_set_sample_to_source_distance d sample_to_source_distance ;;
  let d := Beam_set_divergence d 0 in
  let d := Beam_set_sigma_divergence d 0 in
  let d := Beam_set_polarization_normal d (mk_vec3 0 1 0) in
  let d := Beam_set_polarization_fraction d 0.999 in
  let d := Beam_set_flux d 0 in
  let d := Beam_set_transmission d 1 in
  Ok (Beam_set_probe d xray).

(** [PolychromaticBeam(direction, divergence, sigma_divergence)] *)
Definition PolychromaticBeam_new_divergence (direction : vec3)
    (divergence sigma_divergence : R) : result BeamData :=
  let d := Beam_new in
  DXTBX_ASSERT (Rgtb (Vec3.length direction) 0) "direction.length() > 0" ;;;
  let d := upd_direction d (Vec3.normalize direction) in
  let d := Beam_set_divergence d divergence in
  let d := Beam_set_sigma_divergence d sigma_divergence in
  let d := Beam_set_polarization_normal d (mk_vec3 0 1 0) in
  let d := Beam_set_polarization_fraction d 0.5 in
  let d := Beam_set_flux d 0 in
  let d := Beam_set_transmission d 1 in
  let d := Beam_set_probe d xray in
  Beam_set_sample_to_source_distance d 0.

(** [PolychromaticBeam(direction, divergence, sigma_divergence,
    polarization_normal, polarization_fraction, flux, transmission, probe)] *)
Definition PolychromaticBeam_new_all (direction : vec3)
    (divergence sigma_divergence : R) (polarization_normal : vec3)
    (polarization_fraction flux transmission : R) (probe : Probe)
  : result BeamData :=
  let d := Beam_new in
  DXTBX_ASSERT (Rgtb (Vec3.length direction) 0) "direction.length() > 0" ;;;
  let d := upd_direction d (Vec3.normalize direction) in
  let d := Beam_set_divergence d divergence in
  let d := Beam_set_sigma_divergence d sigma_divergence in
  let d := Beam_set_polarization_normal d polarization_normal in
  let d := Beam_set_polarization_fraction d polarization_fraction in
  let d := Beam_set_flux d flux in
  let d := Beam_set_transmission d transmission in
  let d := Beam_set_probe d probe in
  Beam_set_sample_to_source_distance d 0.

(** [PolychromaticBeam(direction, divergence, sigma_divergence,
    polarization_normal, polarization_fraction, flux, transmission, probe,
    sample_to_source_distance)] *)
Definition PolychromaticBeam_new_all_distance (direction : vec3)
    (divergence sigma_divergence : R) (polarization_normal : vec3)
    (polarization_fraction flux transmission : R) (probe : Probe)
    (sample_to_source_distance : R) : result BeamData :=
  let d := Beam_new in
  DXTBX_ASSERT (Rgtb (Vec3.length direction) 0) "direction.length() > 0" ;;;
  let d := upd_direction d (Vec3.normalize direction) in
  let d := Beam_set_divergence d divergence in
  let d := Beam_set_sigma_divergence d sigma_divergence in
  let d := Beam_set_polarization_normal d polarization_normal in
  let d := Beam_set_polarization_fraction d polarization_fraction in
  let d := Beam_set_flux d flux in
  let d := Beam_set_transmission d transmission in
  let d := Beam_set_probe d probe in
  Beam_set_sample_to_source_distance d sample_to_source_distance.

(** ** Virtual calls through [BeamBase &]

    The methods [PolychromaticBeam] does not override are the ones of
    [Beam]. *)

Definition lift (b : BeamBase) (r : result BeamData) : result BeamBase :=
  d <- r ;; Ok (with_data b d).

Definition get_sample_to_source_direction (b : BeamBase) : vec3 :=
  Beam_get_sample_to_source_direction (data b).
Definition get_sample_to_source_distance (b : BeamBase) : R :=
  Beam_get_sample_to_source_distance (data b).
Definition get_divergence (b : BeamBase) : R := Beam_get_divergence (data b).
Definition get_sigma_divergence (b : BeamBase) : R :=
  Beam_get_sigma_divergence (data b).
Definition get_unit_s0 (b : BeamBase) : vec3 := Beam_get_unit_s0 (data b).
Definition get_polarization_normal (b : BeamBase) : vec3 :=
  Beam_get_polarization_normal (data b).
Definition get_polarization_fraction (b : BeamBase) : R :=
  Beam_get_polarization_fraction (data b).
Definition get_flux (b : BeamBase) : R := Beam_get_flux (data b).
Definition get_transmission (b : BeamBase) : R :=
  Beam_get_transmission (data b).
Definition get_probe (b : BeamBase) : Probe := Beam_get_probe (data b).

Definition get_wavelength (b : BeamBase) : result R :=
  match b with
  | Beam_obj d => Ok (Beam_get_wavelength d)
  | PolychromaticBeam_obj d => PolychromaticBeam_get_wavelength d
  end.

Definition get_s0 (b : BeamBase) : result vec3 :=
  match b with
  | Beam_obj d => Beam_get_s0 d
  | PolychromaticBeam_obj d => PolychromaticBeam_get_s0 d
  end.

Definition get_num_scan_points (b : BeamBase) : result nat :=
  match b with
  | Beam_obj d => Ok (Beam_get_num_scan_points d)
  | PolychromaticBeam_obj d => PolychromaticBeam_get_num_scan_points d
  end.

Definition get_s0_at_scan_points (b : BeamBase) : result (list vec3) :=
  match b with
  | Beam_obj d => Ok (Beam_get_s0_at_scan_points d)
  | PolychromaticBeam_obj d => PolychromaticBeam_get_s0_at_scan_points d
  end.

Definition get_s0_at_scan_point (b : BeamBase) (index : nat) : result vec3 :=
  match b with
  | Beam_obj d => Beam_get_s0_at_scan_point d index
  | PolychromaticBeam_obj d => PolychromaticBeam_get_s0_at_scan_point d index
  end.

Definition set_direction (b : BeamBase) (direction : vec3) : result BeamBase :=
  lift b (Beam_set_direction (data b) direction).

Definition set_wavelength (b : BeamBase) (wavelength : R) : result BeamBase :=
  match b with
  | Beam_obj d => Ok (Beam_obj (Beam_set_wavelength d wavelength))
  | PolychromaticBeam_obj d =>
      lift b (PolychromaticBeam_set_wavelength d wavelength)
  end.

Definition set_s0 (b : BeamBase) (s0 : vec3) : result BeamBase :=
  match b with
  | Beam_obj d => lift b (Beam_set_s0 d s0)
  | PolychromaticBeam_obj d => lift b (PolychromaticBeam_set_s0 d s0)
  end.

Definition set_unit_s0 (b : BeamBase) (unit_s0 : vec3) : result BeamBase :=
  lift b (Beam_set_unit_s0 (data b) unit_s0).

Definition set_divergence (b : BeamBase) (divergence : R) : BeamBase :=
  with_data b (Beam_set_divergence (data b) divergence).

Definition set_sigma_divergence (b : BeamBase) (sigma_divergence : R)
  : BeamBase :=
  with_data b (Beam_set_sigma_divergence (data b) sigma_divergence).

Definition set_polarization_normal (b : BeamBase) (polarization_normal : vec3)
  : BeamBase :=
  with_data b (Beam_set_polarization_normal (data b) polarization_normal).

Definition set_polarization_fraction (b : BeamBase) (polarization_fraction : R)
  : BeamBase :=
  with_data b (Beam_set_polarization_fraction (data b) polarization_fraction).

Definition set_flux (b : BeamBase) (flux : R) : BeamBase :=
  with_data b (Beam_set_flux (data b) flux).

Definition set_transmission (b : BeamBase) (transmission : R) : BeamBase :=
  with_data b (Beam_set_transmission (data b) transmission).

Definition set_s0_at_scan_points (b : BeamBase) (s0 : list vec3)
  : result BeamBase :=
  match b with
  | Beam_obj d => Ok (Beam_obj (Beam_set_s0_at_scan_points d s0))
  | PolychromaticBeam_obj d =>
      lift b (PolychromaticBeam_set_s0_at_scan_points d s0)
  end.

Definition set_probe (b : BeamBase) (probe : Probe) : BeamBase :=
  with_data b (Beam_set_probe (data b) probe).

Definition set_sample_to_source_distance (b : BeamBase)
    (sample_to_source_distance : R) : result BeamBase :=
  lift b (Beam_set_sample_to_source_distance (data b) sample_to_source_distance).

Definition reset_scan_points (b : BeamBase) : result BeamBase :=
  match b with
  | Beam_obj d => Ok (Beam_obj (Beam_reset_scan_points d))
  | PolychromaticBeam_obj d => lift b (PolychromaticBeam_reset_scan_points d)
  end.

(** ** angle_safe *)

Definition clamp (lo hi x : R) : R :=
  if Rlt_dec x lo then lo else if Rlt_dec hi x then hi else x.

(** Modelled from the spec: [angle_safe] is declared in model_helpers.h,
    which is not part of the sources at hand.  The specification (4.1) says
    that it normalizes both inputs, clamps the dot product of the normalized
    vectors to [-1, 1] and takes the inverse cosine, in radians. *)
Definition angle_safe (a b : vec3) : R :=
  acos (clamp (-1) 1 (Vec3.dot (Vec3.normalize a) (Vec3.normalize b))).

(** ** Comparisons *)

(** [for (std::size_t j = j0; j < j0 + n; ++j) { if (!body(j)) return false; }]:
    the answer is [false] when some iteration returned false from the
    enclosing method and [true] when the loop ran to its end. *)
Fixpoint for_each_scan_point (body : nat -> result bool) (j n : nat)
  : result bool :=
  match n with
  | O => Ok true
  | S n' =>
      go_on <- body j ;;
      if go_on then for_each_scan_point body (S j) n' else Ok false
  end.

(** The inner loop of [operator==]:
    [d_s0 += std::abs(this_s0[i] - other_s0[i])] for [i = 0, 1, 2]. *)
Definition d_s0 (this_s0 other_s0 : vec3) : R :=
  fold_left
    (fun acc i => acc + Rabs (Vec3.elem this_s0 i - Vec3.elem other_s0 i))
    (seq 0 3) 0.

Definition Beam_operator_eq_scan_point (this rhs : BeamBase) (eps : R)
    (j : nat) : result bool :=
  this_s0 <- get_s0_at_scan_point this j ;;
  other_s0 <- get_s0_at_scan_point rhs j ;;
  if Rgtb (d_s0 this_s0 other_s0) eps then Ok false else Ok true.

(** The part of [Beam::operator==] under "scan-varying model checks":
    [false] when the method returns false from there, [true] when control
    reaches the static checks.  [this] is passed as an object because the
    body calls the virtual [get_num_scan_points] and [get_s0_at_scan_point]
    on it. *)
Definition Beam_operator_eq_scan_points (this rhs : BeamBase) (eps : R)
  : result bool :=
  n <- get_num_scan_points this ;;
  if (0 <? n)%nat then
    n_rhs <- get_num_scan_points rhs ;;
    if negb (n =? n_rhs)%nat then Ok false
    else for_each_scan_point (Beam_operator_eq_scan_point this rhs eps) 0 n
  else Ok true.

(** The part of [Beam::operator==] under "static model checks". *)
Definition Beam_operator_eq_static (d : BeamData) (rhs : BeamBase) (eps : R)
  : result bool :=
  Ok (Rleb (Rabs (angle_safe (direction_ d)
                    (get_sample_to_source_direction rhs))) eps)
  &&> (w <- get_wavelength rhs ;; Ok (Rleb (Rabs (wavelength_ d - w)) eps))
  &&> Ok (Rleb (Rabs (divergence_ d - get_divergence rhs)) eps)
  &&> Ok (Rleb (Rabs (sigma_divergence_ d - get_sigma_divergence rhs)) eps)
  &&> Ok (Rleb (Rabs (angle_safe (polarization_normal_ d)
                        (get_polarization_normal rhs))) eps)
  &&> Ok (Rleb (Rabs (polarization_fraction_ d
                      - get_polarization_fraction rhs)) eps)
  &&> Ok (Rleb (Rabs (flux_ d - get_flux rhs)) eps)
  &&> Ok (Rleb (Rabs (transmission_ d - get_transmission rhs)) eps)
  &&> Ok (Rleb (Rabs (sample_to_source_distance_ d
                      - get_sample_to_source_distance rhs)) eps)
  &&> Ok (Probe_eqb (probe_ d) (get_probe rhs)).

(** [Beam::operator==] *)
Definition Beam_operator_eq (this rhs : BeamBase) : result bool :=
  let eps := 1e-6 in
  scan_ok <- Beam_operator_eq_scan_points this rhs eps ;;
  if negb scan_ok then Ok false
  else Beam_operator_eq_static (data this) rhs eps.

(** The body of the scan-point loop of both [Beam::is_similar_to]. *)
Definition Beam_is_similar_to_scan_point (this rhs : BeamBase)
    (wavelength_tolerance direction_tolerance : R) (i : nat) : result bool :=
  s0_a <- get_s0_at_scan_point this i ;;
  s0_b <- get_s0_at_scan_point rhs i ;;
  let us0_a := Vec3.normalize s0_a in
  let us0_b := Vec3.normalize s0_b in
  if Rgtb (Rabs (angle_safe us0_a us0_b)) direction_tolerance then Ok false
  else
    let wavelength_a := 1 / Vec3.length s0_a in
    let wavelength_b := 1 / Vec3.length s0_b in
    if Rgtb (Rabs (wavelength_a - wavelength_b)) wavelength_tolerance
    then Ok false
    else Ok true.

Definition Beam_is_similar_to_scan_points (this rhs : BeamBase)
    (wavelength_tolerance direction_tolerance : R) : result bool :=
  n <- get_num_scan_points this ;;
  n_rhs <- get_num_scan_points rhs ;;
  if negb (n =? n_rhs)%nat then Ok false
  else
    for_each_scan_point
      (Beam_is_similar_to_scan_point this rhs wavelength_tolerance
         direction_tolerance) 0 n.

(** [Beam::is_similar_to], the overload with four tolerances. *)
Definition Beam_is_similar_to_core (this rhs : BeamBase)
    (wavelength_tolerance direction_tolerance polarization_normal_tolerance
       polarization_fraction_tolerance : R) : result bool :=
  let d := data this in
  scan_ok <- Beam_is_similar_to_scan_points this rhs wavelength_tolerance
               direction_tolerance ;;
  if negb scan_ok then Ok false
  else
    Ok (Rleb (Rabs (angle_safe (direction_ d)
                      (get_sample_to_source_direction rhs)))
          direction_tolerance)
    &&> (w <- get_wavelength rhs ;;
         Ok (Rleb (Rabs (wavelength_ d - w)) wavelength_tolerance))
    &&> Ok (Rleb (Rabs (angle_safe (polarization_normal_ d)
                          (get_polarization_normal rhs)))
              polarization_normal_tolerance)
    &&> Ok (Rleb (Rabs (polarization_fraction_ d
                        - get_polarization_fraction rhs))
              polarization_fraction_tolerance)
    &&> Ok (Probe_eqb (probe_ d) (get_probe rhs)).

(** [Beam::is_similar_to], the overload with nine tolerances (the last five
    default to 1e-6 at the call site). *)
Definition Beam_is_similar_to (this rhs : BeamBase)
    (wavelength_tolerance direction_tolerance polarization_normal_tolerance
       polarization_fraction_tolerance divergence_tolerance
       sigma_divergence_tolerance flux_tolerance transmission_tolerance
       sample_to_source_tolerance : R) : result bool :=
  let d := data this in
  scan_ok <- Beam_is_similar_to_scan_points this rhs wavelength_tolerance
               direction_tolerance ;;
  if negb scan_ok then Ok false
  else
    Ok (Rleb (Rabs (angle_safe (direction_ d)
                      (get_sample_to_source_direction rhs)))
          direction_tolerance)
    &&> (w <- get_wavelength rhs ;;
         Ok (Rleb (Rabs (wavelength_ d - w)) wavelength_tolerance))
    &&> Ok (Rleb (Rabs (angle_safe (polarization_normal_ d)
                          (get_polarization_normal rhs)))
              polarization_normal_tolerance)
    &&> Ok (Rleb (Rabs (polarization_fraction_ d
                        - get_polarization_fraction rhs))
              polarization_fraction_tolerance)
    &&> Ok (Rleb (Rabs (divergence_ d - get_divergence rhs))
              divergence_tolerance)
    &&> Ok (Rleb (Rabs (sigma_divergence_ d - get_sigma_divergence rhs))
              sigma_divergence_tolerance)
    &&> Ok (Rleb (Rabs (flux_ d - get_flux rhs)) flux_tolerance)
    &&> Ok (Rleb (Rabs (transmission_ d - get_transmission rhs))
              transmission_tolerance)
    &&> Ok (Rleb (Rabs (sample_to_source_distance_ d
                        - get_sample_to_source_distance rhs))
              sample_to_source_tolerance).

(** [PolychromaticBeam::operator==] *)
Definition PolychromaticBeam_operator_eq (this rhs : BeamBase) : result bool :=
  let d := data this in
  let eps := 1e-6 in
  Ok (Rleb (Rabs (angle_safe (direction_ d)
                    (get_sample_to_source_direction rhs))) eps)
  &&> Ok (Rleb (Rabs (divergence_ d - get_divergence rhs)) eps)
  &&> Ok (Rleb (Rabs (sigma_divergence_ d - get_sigma_divergence rhs)) eps)
  &&> Ok (Rleb (Rabs (angle_safe (polarization_normal_ d)
                        (get_polarization_normal rhs))) eps)
  &&> Ok (Rleb (Rabs (polarization_fraction_ d
                      - get_polarization_fraction rhs)) eps)
  &&> Ok (Rleb (Rabs (flux_ d - get_flux rhs)) eps)
  &&> Ok (Rleb (Rabs (transmission_ d - get_transmission rhs)) eps)
  &&> Ok (Rleb (Rabs (sample_to_source_distance_ d
                      - get_sample_to_source_distance rhs)) eps)
  &&> Ok (Probe_eqb (probe_ d) (get_probe rhs)).

(** [PolychromaticBeam::is_similar_to], the overload with eight tolerances
    (the last five default to 1e-6 at the call site).  The parameters
    [divergence_tolerance] and [sigma_divergence_tolerance] are not used by
    the body. *)
Definition PolychromaticBeam_is_similar_to (this rhs : BeamBase)
    (direction_tolerance polarization_normal_tolerance
       polarization_fraction_tolerance divergence_tolerance
       sigma_divergence_tolerance flux_tolerance transmission_tolerance
       sample_to_source_tolerance : R) : result bool :=
  let d := data this in
  Ok (Rleb (Rabs (angle_safe (direction_ d)
                    (get_sample_to_source_direction rhs)))
        direction_tolerance)
  &&> Ok (Rleb (Rabs (angle_safe (polarization_normal_ d)
                        (get_polarization_normal rhs)))
            polarization_normal_tolerance)
  &&> Ok (Rleb (Rabs (polarization_fraction_ d
                      - get_polarization_fraction rhs))
            polarization_fraction_tolerance)
  &&> Ok (Rleb (Rabs (flux_ d - get_flux rhs)) flux_tolerance)
  &&> Ok (Rleb (Rabs (transmission_ d - get_transmission rhs))
            transmission_tolerance)
  &&> Ok (Rleb (Rabs (sample_to_source_distance_ d
                      - get_sample_to_source_distance rhs))
            sample_to_source_tolerance)
  &&> Ok (Probe_eqb (probe_ d) (get_probe rhs)).

(** [PolychromaticBeam::is_similar_to], the overload that takes (and drops)
    a wavelength tolerance. *)
Definition PolychromaticBeam_is_similar_to_core (this rhs : BeamBase)
    (wavelength_tolerance direction_tolerance polarization_normal_tolerance
       polarization_fraction_tolerance : R) : result bool :=
  PolychromaticBeam_is_similar_to this rhs direction_tolerance
    polarization_normal_tolerance polarization_fraction_tolerance
    1e-6 1e-6 1e-6 1e-6 1e-6.

(** Virtual [operator==], and [operator!=] of class [Beam], which
    [PolychromaticBeam] inherits. *)
Definition operator_eq (this rhs : BeamBase) : result bool :=
  match this with
  | Beam_obj _ => Beam_operator_eq this rhs
  | PolychromaticBeam_obj _ => PolychromaticBeam_operator_eq this rhs
  end.

Definition operator_ne (this rhs : BeamBase) : result bool :=
  r <- operator_eq this rhs ;; Ok (negb r).

(** ** Particular beams *)

(** The default polychromatic beam. *)
Definition PolychromaticBeam_default : BeamData :=
  mk_BeamData (mk_vec3 0 0 1) 0 0 (mk_vec3 0 1 0) 0.5 0 1 xray 0 0 [].

(** A monochromatic beam with one scan point. *)
Definition Beam_with_one_scan_point : BeamData :=
  Beam_set_s0_at_scan_points Beam_new [mk_vec3 0 0 1].

(** A polychromatic beam along x. *)
Definition PolychromaticBeam_along_x : BeamData :=
  upd_direction PolychromaticBeam_default (mk_vec3 1 0 0).

(** The default polychromatic beam with divergence 1. *)
Definition PolychromaticBeam_divergent : BeamData :=
  Beam_set_divergence PolychromaticBeam_default 1.

(** ** The overloads of is_similar_to, by tolerance assignment *)

(** An assignment of the nine tolerances of [is_similar_to]. *)
Record tolerances : Type := mk_tolerances {
  wavelength_tolerance : R;
  direction_tolerance : R;
  polarization_normal_tolerance : R;
  polarization_fraction_tolerance : R;
  divergence_tolerance : R;
  sigma_divergence_tolerance : R;
  flux_tolerance : R;
  transmission_tolerance : R;
  sample_to_source_tolerance : R
}.

(** [t <= t'], tolerance by tolerance. *)
Definition tolerances_le (t t' : tolerances) : Prop :=
  wavelength_tolerance t <= wavelength_tolerance t'
  /\ direction_tolerance t <= direction_tolerance t'
  /\ polarization_normal_tolerance t <= polarization_normal_tolerance t'
  /\ polarization_fraction_tolerance t <= polarization_fraction_tolerance t'
  /\ divergence_tolerance t <= divergence_tolerance t'
  /\ sigma_divergence_tolerance t <= sigma_divergence_tolerance t'
  /\ flux_tolerance t <= flux_tolerance t'
  /\ transmission_tolerance t <= transmission_tolerance t'
  /\ sample_to_source_tolerance t <= sample_to_source_tolerance t'.

Definition all_tolerances (x : R) : tolerances :=
  mk_tolerances x x x x x x x x x.

(** The four bodies of [is_similar_to] in the source. *)
Inductive overload : Type :=
| Beam_core            (* Beam::is_similar_to, four tolerances *)
| Beam_extended        (* Beam::is_similar_to, nine tolerances *)
| Polychromatic_core   (* PolychromaticBeam::is_similar_to, four tolerances *)
| Polychromatic_extended. (* PolychromaticBeam::is_similar_to, eight *)

(** A call of one of them, each taking the tolerances it has a parameter
    for.  [Beam_extended] is also what a polychromatic beam runs when it is
    called through [BeamBase] with nine tolerances, hence [this] of either
    dynamic class. *)
Definition call_is_similar_to (o : overload) (this rhs : BeamBase)
    (t : tolerances) : result bool :=
  match o with
  | Beam_core =>
      Beam_is_similar_to_core this rhs (wavelength_tolerance t)
        (direction_tolerance t) (polarization_normal_tolerance t)
        (polarization_fraction_tolerance t)
  | Beam_extended =>
      Beam_is_similar_to this rhs (wavelength_tolerance t)
        (direction_tolerance t) (polarization_normal_tolerance t)
        (polarization_fraction_tolerance t) (divergence_tolerance t)
        (sigma_divergence_tolerance t) (flux_tolerance t)
        (transmission_tolerance t) (sample_to_source_tolerance t)
  | Polychromatic_core =>
      PolychromaticBeam_is_similar_to_core this rhs (wavelength_tolerance t)
        (direction_tolerance t) (polarization_normal_tolerance t)
        (polarization_fraction_tolerance t)
  | Polychromatic_extended =>
      PolychromaticBeam_is_similar_to this rhs
        (direction_tolerance t) (polarization_normal_tolerance t)
        (polarization_fraction_tolerance t) (divergence_tolerance t)
        (sigma_divergence_tolerance t) (flux_tolerance t)
        (transmission_tolerance t) (sample_to_source_tolerance t)
  end.

(** ** Beams reachable through the interface *)

Section Reachability.

(** [vec3::rotate_around_origin(axis, angle)] of scitbx, the external
    vector library: what it computes plays no part below. *)
Variable rotate_around_origin_vec3 : vec3 -> vec3 -> R -> vec3.

(** [Beam::rotate_around_origin], inherited by [PolychromaticBeam]. *)
Definition Beam_rotate_around_origin (d : BeamData) (axis : vec3) (angle : R)
  : BeamData :=
  let d1 :=
    upd_direction d (rotate_around_origin_vec3 (direction_ d) axis angle) in
  upd_polarization_normal d1
    (rotate_around_origin_vec3 (polarization_normal_ d1) axis angle).

Definition rotate_around_origin (b : BeamBase) (axis : vec3) (angle : R)
  : BeamBase :=
  with_data b (Beam_rotate_around_origin (data b) axis angle).

(** The construction profiles of the two classes. *)
Inductive constructor_call : Type :=
| new_Beam
| new_Beam_s0 (s0 : vec3)
| new_Beam_direction (direction : vec3) (wavelength : R)
| new_Beam_s0_divergence (s0 : vec3) (divergence sigma_divergence : R)
| new_Beam_direction_divergence (direction : vec3)
    (wavelength divergence sigma_divergence : R)
| new_Beam_all (direction : vec3)
    (wavelength divergence sigma_divergence : R) (polarization_normal : vec3)
    (polarization_fraction flux transmission : R) (probe : Probe)
| new_Beam_all_distance (direction : vec3)
    (wavelength divergence sigma_divergence : R) (polarization_normal : vec3)
    (polarization_fraction flux transmission : R) (probe : Probe)
    (sample_to_source_distance : R)
| new_PolychromaticBeam
| new_PolychromaticBeam_direction (direction : vec3)
| new_PolychromaticBeam_direction_distance (direction : vec3)
    (sample_to_source_distance : R)
| new_PolychromaticBeam_divergence (direction : vec3)
    (divergence sigma_divergence : R)
| new_PolychromaticBeam_all (direction : vec3)
    (divergence sigma_divergence : R) (polarization_normal : vec3)
    (polarization_fraction flux transmission : R) (probe : Probe)
| new_PolychromaticBeam_all_distance (direction : vec3)
    (divergence sigma_divergence : R) (polarization_normal : vec3)
    (polarization_fraction flux transmission : R) (probe : Probe)
    (sample_to_source_distance : R).

Definition mono (r : result BeamData) : result BeamBase :=
  d <- r ;; Ok (Beam_obj d).
Definition poly (r : result BeamData) : result BeamBase :=
  d <- r ;; Ok (PolychromaticBeam_obj d).

Definition construct (c : constructor_call) : result BeamBase :=
  match c with
  | new_Beam => Ok (Beam_obj Beam_new)
  | new_Beam_s0 s0 => mono (Beam_new_s0 s0)
  | new_Beam_direction dir wl => mono (Beam_new_direction dir wl)
  | new_Beam_s0_divergence s0 dv sdv =>
      mono (Beam_new_s0_divergence s0 dv sdv)
  | new_Beam_direction_divergence dir wl dv sdv =>
      mono (Beam_new_direction_divergence dir wl dv sdv)
  | new_Beam_all dir wl dv sdv pn pf fl tr pr =>
      mono (Beam_new_all dir wl dv sdv pn pf fl tr pr)
  | new_Beam_all_distance dir wl dv sdv pn pf fl tr pr dist =>
      mono (Beam_new_all_distance dir wl dv sdv pn pf fl tr pr dist)
  | new_PolychromaticBeam => poly PolychromaticBeam_new
  | new_PolychromaticBeam_direction dir =>
      poly (PolychromaticBeam_new_direction dir)
  | new_PolychromaticBeam_direction_distance dir dist =>
      poly (PolychromaticBeam_new_direction_distance dir dist)
  | new_PolychromaticBeam_divergence dir dv sdv =>
      poly (PolychromaticBeam_new_divergence dir dv sdv)
  | new_PolychromaticBeam_all dir dv sdv pn pf fl tr pr =>
      poly (PolychromaticBeam_new_all dir dv sdv pn pf fl tr pr)
  | new_PolychromaticBeam_all_distance dir dv sdv pn pf fl tr pr dist =>
      poly (PolychromaticBeam_new_all_distance dir dv sdv pn pf fl tr pr dist)
  end.

(** The operations of the interface that change the object. *)
Inductive operation : Type :=
| op_set_direction (direction : vec3)
| op_set_wavelength (wavelength : R)
| op_set_s0 (s0 : vec3)
| op_set_unit_s0 (unit_s0 : vec3)
| op_set_divergence (divergence : R)
| op_set_sigma_divergence (sigma_divergence : R)
| op_set_polarization_normal (polarization_normal : vec3)
| op_set_polarization_fraction (polarization_fraction : R)
| op_set_flux (flux : R)
| op_set_transmission (transmission : R)
| op_set_s0_at_scan_points (s0 : list vec3)
| op_set_probe (probe : Probe)
| op_set_sample_to_source_distance (sample_to_source_distance : R)
| op_reset_scan_points
| op_rotate_around_origin (axis : vec3) (angle : R).

Definition perform (b : BeamBase) (o : operation) : result BeamBase :=
  match o with
  | op_set_direction v => set_direction b v
  | op_set_wavelength w => set_wavelength b w
  | op_set_s0 v => set_s0 b v
  | op_set_unit_s0 v => set_unit_s0 b v
  | op_set_divergence x => Ok (set_divergence b x)
  | op_set_sigma_divergence x => Ok (set_sigma_divergence b x)
  | op_set_polarization_normal v => Ok (set_polarization_normal b v)
  | op_set_polarization_fraction x => Ok (set_polarization_fraction b x)
  | op_set_flux x => Ok (set_flux b x)
  | op_set_transmission x => Ok (set_transmission b x)
  | op_set_s0_at_scan_points l => set_s0_at_scan_points b l
  | op_set_probe p => Ok (set_probe b p)
  | op_set_sample_to_source_distance x => set_sample_to_source_distance b x
  | op_reset_scan_points => reset_scan_points b
  | op_rotate_around_origin axis angle =>
      Ok (rotate_around_origin b axis angle)
  end.

(** The object after a call: a call that throws does so before it has
    written anything, and leaves the object as it was. *)
Definition after (b : BeamBase) (o : operation) : BeamBase :=
  match perform b o with
  | Ok b' => b'
  | Throw _ => b
  end.

Definition after_all (b : BeamBase) (ops : list operation) : BeamBase :=
  fold_left after ops b.

End Reachability.

(** ** Predicates on construction profiles and operations *)



(** Every construction profile but [Beam]'s with a negative distance. *)
Definition distance_argument_checked (c : constructor_call) : Prop :=
  match c with
  | new_Beam_all_distance _ _ _ _ _ _ _ _ _ dist => 0 <= dist
  | _ => True
  end.

(** ** Probe names *)

(** The [switch] of [Beam::get_probe_name]; its [default] branch, which
    throws, needs a value outside the enumeration. *)
Definition Probe_name (p : Probe) : string :=
  match p with
  | xray => "x-ray"
  | electron => "electron"
  | neutron => "neutron"
  end.

Definition Beam_get_probe_name (d : BeamData) : string :=
  Probe_name (probe_ d).

Definition get_probe_name (b : BeamBase) : string :=
  Beam_get_probe_name (data b).

(** [static Probe Beam::get_probe_from_name(const std::string probe)] *)
Definition Beam_get_probe_from_name (probe : string) : result Probe :=
  if String.eqb probe "x-ray" then Ok xray
  else if String.eqb probe "electron" then Ok electron
  else if String.eqb probe "neutron" then Ok neutron
  else Throw (dxtbx_error (String.append "Unknown probe " probe)).

(** [is_similar_to] through [BeamBase &], with nine tolerances: the final
    overrider is [Beam::is_similar_to] for both classes. *)
Definition is_similar_to (this rhs : BeamBase) (t : tolerances)
  : result bool :=
  call_is_similar_to Beam_extended this rhs t.

(** ** What the constructors assert *)

(** The assertions a construction profile makes on its arguments, directly
    or through the setters it calls. *)
Definition constructor_precondition (c : constructor_call) : Prop :=
  match c with
  | new_Beam | new_PolychromaticBeam => True
  | new_Beam_s0 v
  | new_Beam_direction v _
  | new_Beam_s0_divergence v _ _
  | new_Beam_direction_divergence v _ _ _
  | new_Beam_all v _ _ _ _ _ _ _ _
  | new_Beam_all_distance v _ _ _ _ _ _ _ _ _
  | new_PolychromaticBeam_direction v
  | new_PolychromaticBeam_divergence v _ _
  | new_PolychromaticBeam_all v _ _ _ _ _ _ _ => 0 < Vec3.length v
  | new_PolychromaticBeam_direction_distance v dist
  | new_PolychromaticBeam_all_distance v _ _ _ _ _ _ _ dist =>
      0 < Vec3.length v /\ 0 <= dist
  end.

(** ** The wave-vector methods over binary64

    The vector operations and the methods of class [Beam] that divide by a
    computed length, written as above with the operations of IEEE 754
    binary64 in place of those of [R]. *)

Module Double.

Import PrimFloat.
#[local] Set Warnings "-inexact-float".

Record vec3 : Type := mk_vec3 { vx : float; vy : float; vz : float }.

Definition dot (a b : vec3) : float :=
  (vx a * vx b + vy a * vy b + vz a * vz b)%float.

Definition length_sq (a : vec3) : float := dot a a.

Definition length (a : vec3) : float := sqrt (length_sq a).

Definition div (a : vec3) (s : float) : vec3 :=
  mk_vec3 (vx a / s)%float (vy a / s)%float (vz a / s)%float.

Definition scale (a : vec3) (s : float) : vec3 :=
  mk_vec3 (vx a * s)%float (vy a * s)%float (vz a * s)%float.

Definition neg (a : vec3) : vec3 :=
  mk_vec3 (- vx a)%float (- vy a)%float (- vz a)%float.

Definition normalize (a : vec3) : vec3 := div a (length a).

(** [a != b] on doubles, componentwise for vectors. *)
Definition neb (x y : float) : bool := negb (eqb x y).

Definition is_zero (a : vec3) : bool :=
  (eqb (vx a) 0 && eqb (vy a) 0 && eqb (vz a) 0)%bool.

Record BeamData : Type := mk_BeamData {
  direction_ : vec3;
  divergence_ : float;
  sigma_divergence_ : float;
  polarization_normal_ : vec3;
  polarization_fraction_ : float;
  flux_ : float;
  transmission_ : float;
  probe_ : Probe;
  sample_to_source_distance_ : float;
  wavelength_ : float;
  s0_at_scan_points_ : list vec3
}.

Definition upd_direction (d : BeamData) (v : vec3) : BeamData :=
  mk_BeamData v (divergence_ d) (sigma_divergence_ d) (polarization_normal_ d)
    (polarization_fraction_ d) (flux_ d) (transmission_ d) (probe_ d)
    (sample_to_source_distance_ d) (wavelength_ d) (s0_at_scan_points_ d).

Definition upd_wavelength (d : BeamData) (x : float) : BeamData :=
  mk_BeamData (direction_ d) (divergence_ d) (sigma_divergence_ d)
    (polarization_normal_ d) (polarization_fraction_ d) (flux_ d)
    (transmission_ d) (probe_ d) (sample_to_source_distance_ d) x
    (s0_at_scan_points_ d).

(** [Beam()] *)
Definition Beam_new : BeamData :=
  mk_BeamData (mk_vec3 0 0 1) 0 0 (mk_vec3 0 1 0) 0.999 0 1 xray 0 0 [].

(** [Beam(vec3<double> s0)] *)
Definition Beam_new_s0 (s0 : vec3) : result BeamData :=
  DXTBX_ASSERT (ltb 0 (length s0)) "s0.length() > 0" ;;;
  Ok (mk_BeamData (neg (normalize s0)) 0 0 (mk_vec3 0 1 0) 0.999 0 1
        xray 0 (1 / length s0)%float []).

Definition Beam_set_direction (d : BeamData) (direction : vec3)
  : result BeamData :=
  DXTBX_ASSERT (ltb 0 (length direction)) "direction.length() > 0" ;;;
  Ok (upd_direction d (normalize direction)).

Definition Beam_get_s0 (d : BeamData) : result vec3 :=
  DXTBX_ASSERT (neb (wavelength_ d) 0) "wavelength_ != 0.0" ;;;
  Ok (div (scale (neg (direction_ d)) 1) (wavelength_ d)).

Definition Beam_set_s0 (d : BeamData) (s0 : vec3) : result BeamData :=
  DXTBX_ASSERT (ltb 0 (length s0)) "s0.length() > 0" ;;;
  let d1 := upd_direction d (neg (normalize s0)) in
  Ok (upd_wavelength d1 (1 / length s0)%float).

Definition Beam_set_unit_s0 (d : BeamData) (unit_s0 : vec3) : result BeamData :=
  DXTBX_ASSERT (ltb 0 (length unit_s0)) "unit_s0.length() > 0" ;;;
  Ok (upd_direction d (neg (normalize unit_s0))).

(** Vectors and numbers at which the methods are evaluated. *)
Definition tiny_x : vec3 := mk_vec3 1e-200 0 0.
Definition huge_x : vec3 := mk_vec3 1e200 0 0.
Definition zero : float := 0%float.
Definition minus_zero_vec : vec3 := mk_vec3 (-0) (-0) (-0).

End Double.

(** * Properties *)

(** ** Comparisons of doubles *)

Lemma Rleb_true_iff (x y : R) : Rleb x y = true <-> x <= y.
Proof. unfold Rleb. destruct (Rle_dec x y); split; intros; auto; discriminate. Qed.

Lemma Rleb_false_iff (x y : R) : Rleb x y = false <-> y < x.
Proof.
  unfold Rleb. destruct (Rle_dec x y); split; intros; try discriminate; auto; lra.
Qed.

Lemma Rgtb_true_iff (x y : R) : Rgtb x y = true <-> y < x.
Proof. unfold Rgtb. destruct (Rlt_dec y x); split; intros; auto; discriminate. Qed.

Lemma Rgtb_false_iff (x y : R) : Rgtb x y = false <-> x <= y.
Proof.
  unfold Rgtb. destruct (Rlt_dec y x); split; intros; try discriminate; auto; lra.
Qed.


Lemma Rleb_mono (x t t' : R) : t <= t' -> Rleb x t = true -> Rleb x t' = true.
Proof. rewrite !Rleb_true_iff. lra. Qed.

Lemma Rgtb_mono (x t t' : R) : t <= t' -> Rgtb x t = false -> Rgtb x t' = false.
Proof. rewrite !Rgtb_false_iff. lra. Qed.

(** ** Vectors *)

Lemma length_sq_nonneg (v : vec3) : 0 <= Vec3.length_sq v.
Proof. unfold Vec3.length_sq, Vec3.dot. nra. Qed.

Lemma length_zero : Vec3.length Vec3.zero = 0.
Proof.
  unfold Vec3.length, Vec3.length_sq, Vec3.dot, Vec3.zero. simpl.
  replace (0 * 0 + 0 * 0 + 0 * 0) with 0 by ring. apply sqrt_0.
Qed.

Lemma length_sqr (v : vec3) :
  Vec3.length v * Vec3.length v = Vec3.length_sq v.
Proof. unfold Vec3.length. apply sqrt_sqrt. apply length_sq_nonneg. Qed.

(** A normalized vector has length one. *)
Lemma normalize_length (v : vec3) :
  0 < Vec3.length v -> Vec3.length (Vec3.normalize v) = 1.
Proof.
  intros Hl. pose proof (length_sqr v) as Hs.
  unfold Vec3.length at 1. rewrite <- sqrt_1. f_equal.
  unfold Vec3.normalize, Vec3.div, Vec3.length_sq, Vec3.dot in *. simpl.
  set (l := Vec3.length v) in *.
  replace (vx v / l * (vx v / l) + vy v / l * (vy v / l) + vz v / l * (vz v / l))
    with ((vx v * vx v + vy v * vy v + vz v * vz v) / (l * l))
    by (field; lra).
  rewrite <- Hs. field. lra.
Qed.

Lemma neg_length (v : vec3) : Vec3.length (Vec3.neg v) = Vec3.length v.
Proof.
  unfold Vec3.length, Vec3.length_sq, Vec3.dot, Vec3.neg. simpl. f_equal. ring.
Qed.

(** The length of an axis-aligned vector along z, y or x. *)
Lemma length_axis_z (z : R) : 0 <= z -> Vec3.length (mk_vec3 0 0 z) = z.
Proof.
  intros Hz. unfold Vec3.length, Vec3.length_sq, Vec3.dot. simpl.
  replace (0 * 0 + 0 * 0 + z * z) with (z * z) by ring.
  apply sqrt_square. exact Hz.
Qed.

Lemma length_axis_y (y : R) : 0 <= y -> Vec3.length (mk_vec3 0 y 0) = y.
Proof.
  intros Hy. unfold Vec3.length, Vec3.length_sq, Vec3.dot. simpl.
  replace (0 * 0 + y * y + 0 * 0) with (y * y) by ring.
  apply sqrt_square. exact Hy.
Qed.

Lemma length_axis_x (x : R) : 0 <= x -> Vec3.length (mk_vec3 x 0 0) = x.
Proof.
  intros Hx. unfold Vec3.length, Vec3.length_sq, Vec3.dot. simpl.
  replace (x * x + 0 * 0 + 0 * 0) with (x * x) by ring.
  apply sqrt_square. exact Hx.
Qed.

(** ** Assertions *)

Lemma DXTBX_ASSERT_true (c : bool) (text : string) :
  c = true -> DXTBX_ASSERT c text = Ok tt.
Proof. intros ->. reflexivity. Qed.

Lemma DXTBX_ASSERT_false (c : bool) (text : string) :
  c = false -> DXTBX_ASSERT c text = Throw (assertion_failure text).
Proof. intros ->. reflexivity. Qed.

Lemma assert_length_pos (v : vec3) (text : string) :
  0 < Vec3.length v -> DXTBX_ASSERT (Rgtb (Vec3.length v) 0) text = Ok tt.
Proof. intros H. apply DXTBX_ASSERT_true. apply Rgtb_true_iff. exact H. Qed.

(** ** set_s0 and get_s0 *)




(** A vector of length one is its own unit form. *)
Lemma normalize_unit (v : vec3) : Vec3.length v = 1 -> Vec3.normalize v = v.
Proof.
  intros H. unfold Vec3.normalize. rewrite H. destruct v as [x y z].
  cbv [Vec3.div vx vy vz]. f_equal; field.
Qed.

(** ** set_unit_s0 *)

(** C7, as the code has it.  On a monochromatic beam and for a vector
    [u = (x, y, z)] whose computed length [l] is positive, [set_unit_s0 u]
    succeeds, sets the direction to [-(u / l)] and leaves every other data
    member as it was; the wavelength in particular. *)
Theorem set_unit_s0_only_changes_direction (d : BeamData) (x y z : R) :
  let l := sqrt (x * x + y * y + z * z) in
  0 < l ->
  exists d',
    set_unit_s0 (Beam_obj d) (mk_vec3 x y z) = Ok (Beam_obj d')
    /\ direction_ d' = mk_vec3 (- (x / l)) (- (y / l)) (- (z / l))
    /\ wavelength_ d' = wavelength_ d
    /\ divergence_ d' = divergence_ d
    /\ sigma_divergence_ d' = sigma_divergence_ d
    /\ polarization_normal_ d' = polarization_normal_ d
    /\ polarization_fraction_ d' = polarization_fraction_ d
    /\ flux_ d' = flux_ d
    /\ transmission_ d' = transmission_ d
    /\ probe_ d' = probe_ d
    /\ sample_to_source_distance_ d' = sample_to_source_distance_ d
    /\ s0_at_scan_points_ d' = s0_at_scan_points_ d.
Proof.
  intros l Hl.
  exists (upd_direction d (Vec3.neg (Vec3.normalize (mk_vec3 x y z)))).
  split.
  - unfold set_unit_s0, lift, Beam_set_unit_s0. cbn [data].
    rewrite DXTBX_ASSERT_true by (apply Rgtb_true_iff; exact Hl).
    reflexivity.
  - repeat split.
Qed.

(** The scenario of the specification, with a vector that is not of unit
    length: [set_unit_s0((2,0,0))] on a beam of wavelength 2.0 gives the
    direction -(2/2, 0/2, 0/2) and leaves the wavelength at 2.0. *)
Lemma set_unit_s0_only_changes_direction_witness :
  exists d',
    set_unit_s0 (Beam_obj (Beam_set_wavelength Beam_new 2)) (mk_vec3 2 0 0)
    = Ok (Beam_obj d')
    /\ direction_ d' = mk_vec3 (- (2 / 2)) (- (0 / 2)) (- (0 / 2))
    /\ wavelength_ d' = 2.
Proof.
  assert (H2 : sqrt (2 * 2 + 0 * 0 + 0 * 0) = 2).
  { replace (2 * 2 + 0 * 0 + 0 * 0) with (2 * 2) by ring.
    apply sqrt_square. lra. }
  destruct (set_unit_s0_only_changes_direction
              (Beam_set_wavelength Beam_new 2) 2 0 0)
    as (d' & Hset & Hdir & Hwl & _).
  - rewrite H2. lra.
  - exists d'. split; [exact Hset | split].
    + rewrite Hdir, H2. reflexivity.
    + rewrite Hwl. reflexivity.
Defined.

(** C7 as stated fails on doubles for a nonzero vector whose computed
    length is zero: [set_unit_s0((1e-200, 0, 0))] fails the assertion.  For
    (1e200, 0, 0), whose computed length is infinite, the direction stored
    is (-0, -0, -0). *)
Lemma set_unit_s0_rejects_underflowing_vector :
  Double.is_zero Double.tiny_x = false
  /\ Double.Beam_set_unit_s0 Double.Beam_new Double.tiny_x
     = Throw (assertion_failure "unit_s0.length() > 0")
  /\ (exists d',
        Double.Beam_set_unit_s0 Double.Beam_new Double.huge_x = Ok d'
        /\ Double.direction_ d' = Double.minus_zero_vec).
Proof.
  split; [vm_compute; reflexivity | ].
  split; [vm_compute; reflexivity | ].
  eexists. split; vm_compute; reflexivity.
Qed.

(** ** Setters of direction-like vectors *)

(** C5, as the code has it.  [set_direction], [set_unit_s0] (on either
    variant) and [set_s0] (on a monochromatic beam) fail with a failed
    assertion on a vector [v = (x, y, z)] whose computed length [l] is not
    positive; otherwise they store the vector divided by that length: [v / l]
    for [set_direction], its opposite for [set_s0] and [set_unit_s0].
    [set_polarization_normal] stores the vector it is given, whatever its
    length, and cannot fail. *)
Theorem direction_setters_normalize (b : BeamBase) (d : BeamData)
    (x y z : R) :
  let v := mk_vec3 x y z in
  let l := sqrt (x * x + y * y + z * z) in
  (~ 0 < l ->
     set_direction b v = Throw (assertion_failure "direction.length() > 0")
     /\ set_unit_s0 b v = Throw (assertion_failure "unit_s0.length() > 0")
     /\ set_s0 (Beam_obj d) v = Throw (assertion_failure "s0.length() > 0"))
  /\ (0 < l ->
        (exists b1, set_direction b v = Ok b1
                    /\ direction_ (data b1) = mk_vec3 (x / l) (y / l) (z / l))
        /\ (exists b2, set_unit_s0 b v = Ok b2
                       /\ direction_ (data b2)
                          = mk_vec3 (- (x / l)) (- (y / l)) (- (z / l)))
        /\ (exists b3, set_s0 (Beam_obj d) v = Ok b3
                       /\ direction_ (data b3)
                          = mk_vec3 (- (x / l)) (- (y / l)) (- (z / l))))
  /\ get_polarization_normal (set_polarization_normal b v) = v.
Proof.
  intros v l. split; [ | split].
  - intros H0.
    assert (Hf : Rgtb (Vec3.length v) 0 = false)
      by (apply Rgtb_false_iff; change (Vec3.length v) with l; lra).
    unfold set_direction, set_unit_s0, set_s0, lift, Beam_set_direction,
      Beam_set_unit_s0, Beam_set_s0.
    rewrite !(DXTBX_ASSERT_false _ _ Hf). repeat split.
  - intros Hl.
    assert (Ht : Rgtb (Vec3.length v) 0 = true)
      by (apply Rgtb_true_iff; exact Hl).
    unfold set_direction, set_unit_s0, set_s0, lift, Beam_set_direction,
      Beam_set_unit_s0, Beam_set_s0.
    rewrite !(DXTBX_ASSERT_true _ _ Ht). cbn [bind].
    repeat split; eexists; (split; [reflexivity | ]);
      destruct b; reflexivity.
  - destruct b; reflexivity.
Qed.

Lemma direction_setters_normalize_witness :
  set_direction (Beam_obj Beam_new) Vec3.zero
  = Throw (assertion_failure "direction.length() > 0")
  /\ (exists b1, set_direction (Beam_obj Beam_new) (mk_vec3 0 0 2) = Ok b1
                 /\ direction_ (data b1) = mk_vec3 (0 / 2) (0 / 2) (2 / 2))
  /\ get_polarization_normal
       (set_polarization_normal (Beam_obj Beam_new) (mk_vec3 0 0 2))
     = mk_vec3 0 0 2.
Proof.
  assert (H0 : sqrt (0 * 0 + 0 * 0 + 0 * 0) = 0).
  { replace (0 * 0 + 0 * 0 + 0 * 0) with 0 by ring. exact sqrt_0. }
  assert (H2 : sqrt (0 * 0 + 0 * 0 + 2 * 2) = 2).
  { replace (0 * 0 + 0 * 0 + 2 * 2) with (2 * 2) by ring.
    apply sqrt_square. lra. }
  split; [ | split].
  - apply (direction_setters_normalize (Beam_obj Beam_new) Beam_new 0 0 0).
    rewrite H0. lra.
  - destruct (direction_setters_normalize (Beam_obj Beam_new) Beam_new
                0 0 2) as (_ & Hnz & _).
    destruct Hnz as ((b1 & Hset & Hdir) & _).
    + rewrite H2. lra.
    + exists b1. split; [exact Hset | ]. rewrite Hdir, H2. reflexivity.
  - apply (direction_setters_normalize (Beam_obj Beam_new) Beam_new 0 0 2).
Defined.

(** C5 as stated fails for [set_polarization_normal]: the zero vector is
    accepted and stored, and a vector of length two is stored as it is, not
    in unit form. *)
Lemma set_polarization_normal_stores_any_vector :
  get_polarization_normal
    (set_polarization_normal (Beam_obj Beam_new) Vec3.zero) = Vec3.zero
  /\ Vec3.length Vec3.zero = 0
  /\ get_polarization_normal
       (set_polarization_normal (Beam_obj Beam_new) (mk_vec3 0 2 0))
     = mk_vec3 0 2 0
  /\ Vec3.length (mk_vec3 0 2 0) = 2
  /\ mk_vec3 0 2 0 <> Vec3.normalize (mk_vec3 0 2 0).
Proof.
  split; [reflexivity | ]. split; [exact length_zero | ].
  split; [reflexivity | ]. split; [apply length_axis_y; lra | ].
  unfold Vec3.normalize. rewrite length_axis_y by lra.
  cbv [Vec3.div vx vy vz]. intros H. injection H as H. lra.
Qed.

(** ** Evaluating the constructors *)

Lemma length_001 : Vec3.length (mk_vec3 0 0 1) = 1.
Proof. apply length_axis_z. lra. Qed.

Lemma length_010 : Vec3.length (mk_vec3 0 1 0) = 1.
Proof. apply length_axis_y. lra. Qed.

Lemma length_100 : Vec3.length (mk_vec3 1 0 0) = 1.
Proof. apply length_axis_x. lra. Qed.

Lemma assert_distance_nonneg (x : R) (text : string) :
  0 <= x -> DXTBX_ASSERT (Rleb 0 x) text = Ok tt.
Proof. intros H. apply DXTBX_ASSERT_true. apply Rleb_true_iff. exact H. Qed.

Lemma assert_distance_neg (x : R) (text : string) :
  x < 0 -> DXTBX_ASSERT (Rleb 0 x) text = Throw (assertion_failure text).
Proof. intros H. apply DXTBX_ASSERT_false. apply Rleb_false_iff. exact H. Qed.

Lemma PolychromaticBeam_new_ok :
  PolychromaticBeam_new = Ok PolychromaticBeam_default.
Proof.
  unfold PolychromaticBeam_new, Beam_set_direction,
    Beam_set_sample_to_source_distance.
  rewrite assert_length_pos by (rewrite length_001; lra). cbn [bind].
  rewrite assert_distance_nonneg by lra. cbn [bind].
  rewrite normalize_unit by exact length_001. reflexivity.
Qed.

(** ** Unsupported operations of the polychromatic beam *)

(** C2, as the code has it.  On a polychromatic beam the nine operations
    that [PolychromaticBeam] overrides fail with its "no fixed wavelength" or
    "no fixed s0" error.  [get_unit_s0] and [set_unit_s0] are not overridden:
    they are the ones of [Beam], so [get_unit_s0] returns the opposite of
    the direction and [set_unit_s0] stores the opposite unit vector. *)
Theorem polychromatic_unsupported_operations
    (d : BeamData) (w : R) (v : vec3) (l : list vec3) (i : nat) :
  let b := PolychromaticBeam_obj d in
  get_wavelength b = Throw (dxtbx_error no_fixed_wavelength)
  /\ set_wavelength b w = Throw (dxtbx_error no_fixed_wavelength)
  /\ get_s0 b = Throw (dxtbx_error no_fixed_s0)
  /\ set_s0 b v = Throw (dxtbx_error no_fixed_s0)
  /\ get_num_scan_points b = Throw (dxtbx_error no_fixed_s0)
  /\ get_s0_at_scan_points b = Throw (dxtbx_error no_fixed_s0)
  /\ set_s0_at_scan_points b l = Throw (dxtbx_error no_fixed_s0)
  /\ get_s0_at_scan_point b i = Throw (dxtbx_error no_fixed_s0)
  /\ reset_scan_points b = Throw (dxtbx_error no_fixed_s0)
  /\ get_unit_s0 b = Vec3.neg (direction_ d)
  /\ set_unit_s0 b v =
       if Rgtb (Vec3.length v) 0
       then Ok (PolychromaticBeam_obj
                  (upd_direction d (Vec3.neg (Vec3.normalize v))))
       else Throw (assertion_failure "unit_s0.length() > 0").
Proof.
  cbv zeta. repeat split.
  unfold set_unit_s0, lift, Beam_set_unit_s0, DXTBX_ASSERT. cbn [data].
  destruct (Rgtb (Vec3.length v) 0); reflexivity.
Qed.

(** C2 as stated fails for the unit wave vector: on the default
    polychromatic beam [get_unit_s0] returns (0,0,-1) and
    [set_unit_s0((1,0,0))] succeeds. *)
Lemma polychromatic_unit_s0_is_supported :
  PolychromaticBeam_new = Ok PolychromaticBeam_default
  /\ get_unit_s0 (PolychromaticBeam_obj PolychromaticBeam_default)
     = mk_vec3 0 0 (-1)
  /\ set_unit_s0 (PolychromaticBeam_obj PolychromaticBeam_default)
       (mk_vec3 1 0 0)
     = Ok (PolychromaticBeam_obj
             (upd_direction PolychromaticBeam_default (mk_vec3 (-1) 0 0))).
Proof.
  split; [exact PolychromaticBeam_new_ok | split].
  - cbv [get_unit_s0 Beam_get_unit_s0 data PolychromaticBeam_default
           direction_ Vec3.neg vx vy vz].
    f_equal; ring.
  - unfold set_unit_s0, lift, Beam_set_unit_s0. cbn [data].
    rewrite assert_length_pos by (rewrite length_100; lra). cbn [bind with_data].
    rewrite normalize_unit by exact length_100.
    do 3 f_equal. cbv [Vec3.neg vx vy vz]. f_equal; ring.
Qed.

(** ** The scan-point loop *)

Lemma for_each_scan_point_true (body : nat -> result bool) (n j : nat) :
  for_each_scan_point body j n = Ok true ->
  forall k, (j <= k < j + n)%nat -> body k = Ok true.
Proof.
  revert j. induction n as [ | n IH]; intros j Hrun k Hk.
  - lia.
  - cbn [for_each_scan_point] in Hrun.
    destruct (body j) as [[ | ] | e] eqn:Hj; cbn [bind] in Hrun;
      try discriminate.
    destruct (Nat.eq_dec k j) as [-> | Hne]; [exact Hj | ].
    apply (IH (S j) Hrun). lia.
Qed.

Lemma for_each_scan_point_all (body : nat -> result bool) (n j : nat) :
  (forall k, (j <= k < j + n)%nat -> body k = Ok true) ->
  for_each_scan_point body j n = Ok true.
Proof.
  revert j. induction n as [ | n IH]; intros j Hall; [reflexivity | ].
  cbn [for_each_scan_point]. rewrite (Hall j) by lia. cbn [bind].
  apply IH. intros k Hk. apply Hall. lia.
Qed.

(** The loop always ends with an answer when its body does. *)
Lemma for_each_scan_point_total (body : nat -> result bool) (n j : nat) :
  (forall k, (j <= k < j + n)%nat -> exists r, body k = Ok r) ->
  exists r, for_each_scan_point body j n = Ok r.
Proof.
  revert j. induction n as [ | n IH]; intros j Hall; [exists true; reflexivity | ].
  cbn [for_each_scan_point]. destruct (Hall j) as [r Hr]; [lia | ].
  rewrite Hr. cbn [bind]. destruct r; [ | exists false; reflexivity].
  apply IH. intros k Hk. apply Hall. lia.
Qed.

Lemma Beam_get_s0_at_scan_point_nth (d : BeamData) (j : nat) :
  (j < List.length (s0_at_scan_points_ d))%nat ->
  Beam_get_s0_at_scan_point d j = Ok (nth j (s0_at_scan_points_ d) Vec3.zero).
Proof.
  intros Hj. unfold Beam_get_s0_at_scan_point.
  rewrite DXTBX_ASSERT_true by (apply Nat.ltb_lt; exact Hj). reflexivity.
Qed.

(** The sum that [operator==] accumulates is the L1 distance. *)
Lemma d_s0_L1 (a b : vec3) :
  d_s0 a b = Rabs (vx a - vx b) + Rabs (vy a - vy b) + Rabs (vz a - vz b).
Proof. unfold d_s0. cbn [seq fold_left Vec3.elem]. ring. Qed.

Lemma d_s0_same (a : vec3) : d_s0 a a = 0.
Proof.
  rewrite d_s0_L1. unfold Rminus. rewrite !Rplus_opp_r, Rabs_R0. ring.
Qed.

(** ** Strict equality of monochromatic beams *)

(** What [==] does check: when its left operand has scan points and the
    comparison of two monochromatic beams answers true, both beams have the
    same number of scan points and, at each index, the sum over the three
    axes of the absolute differences of the wave vectors does not exceed
    1e-6. *)
Lemma operator_eq_compares_scan_points (da db : BeamData) :
  s0_at_scan_points_ da <> [] ->
  operator_eq (Beam_obj da) (Beam_obj db) = Ok true ->
  List.length (s0_at_scan_points_ da) = List.length (s0_at_scan_points_ db)
  /\ forall j, (j < List.length (s0_at_scan_points_ da))%nat ->
       let p := nth j (s0_at_scan_points_ da) Vec3.zero in
       let q := nth j (s0_at_scan_points_ db) Vec3.zero in
       ~ 1e-6 < Rabs (vx p - vx q) + Rabs (vy p - vy q) + Rabs (vz p - vz q).
Proof.
  intros Hne Heq.
  unfold operator_eq, Beam_operator_eq, Beam_operator_eq_scan_points in Heq.
  cbn [get_num_scan_points bind] in Heq.
  unfold Beam_get_num_scan_points in Heq.
  set (n := List.length (s0_at_scan_points_ da)) in *.
  assert (Hn : (0 <? n)%nat = true).
  { apply Nat.ltb_lt. subst n. destruct (s0_at_scan_points_ da);
      [contradiction | cbn; lia]. }
  rewrite Hn in Heq.
  destruct (n =? List.length (s0_at_scan_points_ db))%nat eqn:Hlen;
    cbn [negb bind] in Heq; [ | discriminate].
  apply Nat.eqb_eq in Hlen.
  destruct (for_each_scan_point _ 0 n) as [[ | ] | e] eqn:Hloop;
    cbn [negb bind] in Heq; try discriminate.
  split; [exact Hlen | ].
  intros j Hj p q.
  pose proof (for_each_scan_point_true _ _ _ Hloop j ltac:(lia)) as Hbody.
  unfold Beam_operator_eq_scan_point in Hbody.
  cbn [get_s0_at_scan_point] in Hbody.
  rewrite (Beam_get_s0_at_scan_point_nth da j) in Hbody by exact Hj.
  rewrite (Beam_get_s0_at_scan_point_nth db j) in Hbody by lia.
  cbn [bind] in Hbody.
  destruct (Rgtb _ _) eqn:Hgt in Hbody; [discriminate | ].
  apply Rgtb_false_iff in Hgt. rewrite d_s0_L1 in Hgt.
  subst p q. apply Rle_not_lt. exact Hgt.
Qed.

(** ** angle_safe at particular arguments *)

Lemma clamp_inside (lo hi x : R) : lo <= x <= hi -> clamp lo hi x = x.
Proof.
  intros [Hlo Hhi]. unfold clamp.
  destruct (Rlt_dec x lo); [lra | ]. destruct (Rlt_dec hi x); [lra | ].
  reflexivity.
Qed.

(** The angle between a nonzero vector and itself is zero. *)
Lemma angle_safe_self (v : vec3) : 0 < Vec3.length v -> angle_safe v v = 0.
Proof.
  intros Hl. unfold angle_safe.
  change (Vec3.dot (Vec3.normalize v) (Vec3.normalize v))
    with (Vec3.length_sq (Vec3.normalize v)).
  rewrite <- length_sqr, (normalize_length v Hl).
  rewrite clamp_inside by lra. replace (1 * 1) with 1 by ring. apply acos_1.
Qed.

(** The angle between the z axis and the x axis is a right angle. *)
Lemma angle_safe_z_x : angle_safe (mk_vec3 0 0 1) (mk_vec3 1 0 0) = PI / 2.
Proof.
  unfold angle_safe.
  rewrite (normalize_unit _ length_001), (normalize_unit _ length_100).
  cbv [Vec3.dot vx vy vz].
  replace (0 * 1 + 0 * 0 + 1 * 0) with 0 by ring.
  rewrite clamp_inside by lra. apply acos_0.
Qed.

(** ** Evaluating the static checks *)

Lemma Rleb_abs_diff_same (x eps : R) : 0 <= eps -> Rleb (Rabs (x - x)) eps = true.
Proof.
  intros H. apply Rleb_true_iff. unfold Rminus. rewrite Rplus_opp_r, Rabs_R0.
  exact H.
Qed.

Lemma Rleb_abs_angle_self (v : vec3) (eps : R) :
  0 <= eps -> 0 < Vec3.length v -> Rleb (Rabs (angle_safe v v)) eps = true.
Proof.
  intros H Hl. apply Rleb_true_iff. rewrite (angle_safe_self v Hl), Rabs_R0.
  exact H.
Qed.

Lemma Probe_eqb_refl (p : Probe) : Probe_eqb p p = true.
Proof. destruct p; reflexivity. Qed.

(** The static checks of [Beam::operator==] pass between a beam and a copy
    of it with other scan points. *)
Lemma Beam_operator_eq_static_same (d : BeamData) (l : list vec3) (eps : R) :
  0 <= eps ->
  0 < Vec3.length (direction_ d) ->
  0 < Vec3.length (polarization_normal_ d) ->
  Beam_operator_eq_static d (Beam_obj (upd_s0_at_scan_points d l)) eps
  = Ok true.
Proof.
  intros He Hd Hp. unfold Beam_operator_eq_static.
  cbv [get_sample_to_source_direction get_wavelength get_divergence
         get_sigma_divergence get_polarization_normal
         get_polarization_fraction get_flux get_transmission
         get_sample_to_source_distance get_probe
         Beam_get_sample_to_source_direction Beam_get_wavelength
         Beam_get_divergence Beam_get_sigma_divergence
         Beam_get_polarization_normal Beam_get_polarization_fraction
         Beam_get_flux Beam_get_transmission
         Beam_get_sample_to_source_distance Beam_get_probe
         data upd_s0_at_scan_points direction_ divergence_ sigma_divergence_
         polarization_normal_ polarization_fraction_ flux_ transmission_
         probe_ sample_to_source_distance_ wavelength_].
  destruct d as [dir dv sdv pn pf fl tr pr dist wl sp].
  cbn [direction_ polarization_normal_] in Hd, Hp. cbn [bind].
  rewrite !(Rleb_abs_angle_self _ _ He) by assumption.
  rewrite !(Rleb_abs_diff_same _ _ He), Probe_eqb_refl.
  reflexivity.
Qed.

(** Strict equality is reflexive on a monochromatic beam whose direction
    and polarization normal are not zero. *)
Lemma Beam_operator_eq_refl (d : BeamData) :
  0 < Vec3.length (direction_ d) ->
  0 < Vec3.length (polarization_normal_ d) ->
  operator_eq (Beam_obj d) (Beam_obj d) = Ok true.
Proof.
  intros Hd Hp.
  unfold operator_eq, Beam_operator_eq, Beam_operator_eq_scan_points.
  cbn [get_num_scan_points bind]. rewrite Nat.eqb_refl. cbn [negb].
  assert (Hloop :
    for_each_scan_point
      (Beam_operator_eq_scan_point (Beam_obj d) (Beam_obj d) 1e-6) 0
      (Beam_get_num_scan_points d) = Ok true).
  { apply for_each_scan_point_all. intros k Hk.
    unfold Beam_operator_eq_scan_point. cbn [get_s0_at_scan_point].
    rewrite Beam_get_s0_at_scan_point_nth
      by (unfold Beam_get_num_scan_points in Hk; lia).
    cbn [bind]. rewrite d_s0_same.
    rewrite (proj2 (Rgtb_false_iff 0 1e-6)) by lra. reflexivity. }
  rewrite Hloop. destruct (0 <? _)%nat; cbn [bind negb data].
  - replace d with (upd_s0_at_scan_points d (s0_at_scan_points_ d)) at 2
      by (destruct d; reflexivity).
    apply Beam_operator_eq_static_same; [lra | assumption | assumption].
  - replace d with (upd_s0_at_scan_points d (s0_at_scan_points_ d)) at 2
      by (destruct d; reflexivity).
    apply Beam_operator_eq_static_same; [lra | assumption | assumption].
Qed.

(** C3 at a failing input.  The default beam, which has no scan point,
    compares equal to a copy of it that has one: the scan-point checks of
    [==] are made only when the left operand has scan points.  The same two
    beams compared the other way round are not equal, and both overloads of
    [is_similar_to] tell them apart, as they compare the two counts
    whatever the left operand has. *)
Theorem operator_eq_ignores_scan_points_of_rhs :
  s0_at_scan_points_ Beam_new = []
  /\ s0_at_scan_points_ Beam_with_one_scan_point = [mk_vec3 0 0 1]
  /\ operator_eq (Beam_obj Beam_new) (Beam_obj Beam_with_one_scan_point)
     = Ok true
  /\ operator_eq (Beam_obj Beam_with_one_scan_point) (Beam_obj Beam_new)
     = Ok false
  /\ call_is_similar_to Beam_core (Beam_obj Beam_new)
       (Beam_obj Beam_with_one_scan_point) (all_tolerances 1e-6)
     = Ok false
  /\ call_is_similar_to Beam_extended (Beam_obj Beam_new)
       (Beam_obj Beam_with_one_scan_point) (all_tolerances 1e-6)
     = Ok false.
Proof.
  split; [reflexivity | ]. split; [reflexivity | ]. split.
  - unfold operator_eq, Beam_operator_eq, Beam_operator_eq_scan_points.
    cbn [get_num_scan_points bind Beam_get_num_scan_points Beam_new
           s0_at_scan_points_ List.length Nat.ltb Nat.leb negb data].
    apply Beam_operator_eq_static_same; [lra | | ].
    + cbn [Beam_new direction_]. rewrite length_001. lra.
    + cbn [Beam_new polarization_normal_]. rewrite length_010. lra.
  - split; [reflexivity | ]. split; reflexivity.
Qed.

(** ** Mixed comparisons *)

Lemma and_then_true (a b : result bool) :
  a &&> b = Ok true <-> a = Ok true /\ b = Ok true.
Proof.
  unfold and_then. destruct a as [[ | ] | e]; cbn [bind]; split;
    intros H; try discriminate; try (destruct H; discriminate); tauto.
Qed.

Lemma and_then_total (a b : result bool) :
  (exists r, a = Ok r) -> (exists r, b = Ok r) -> exists r, a &&> b = Ok r.
Proof.
  intros [ra ->] [rb ->]. destruct ra; [exists rb | exists false]; reflexivity.
Qed.

(** [PolychromaticBeam::operator==] reads only what every beam has: it
    always answers. *)
Lemma PolychromaticBeam_operator_eq_total (this rhs : BeamBase) :
  exists r, PolychromaticBeam_operator_eq this rhs = Ok r.
Proof.
  unfold PolychromaticBeam_operator_eq.
  repeat (apply and_then_total; [ | eexists; reflexivity]).
  eexists; reflexivity.
Qed.

(** [Beam::operator==] between two monochromatic beams always answers. *)
Lemma Beam_operator_eq_total (da db : BeamData) :
  exists r, operator_eq (Beam_obj da) (Beam_obj db) = Ok r.
Proof.
  unfold operator_eq, Beam_operator_eq, Beam_operator_eq_scan_points.
  cbn [get_num_scan_points bind]. unfold Beam_get_num_scan_points.
  set (n := List.length (s0_at_scan_points_ da)).
  set (m := List.length (s0_at_scan_points_ db)).
  assert (Hstatic : exists r,
            Beam_operator_eq_static (data (Beam_obj da)) (Beam_obj db) 1e-6
            = Ok r).
  { unfold Beam_operator_eq_static.
    repeat (apply and_then_total; [ | eexists; reflexivity]).
    eexists; reflexivity. }
  destruct (0 <? n)%nat; [ | exact Hstatic].
  destruct (n =? m)%nat eqn:Hnm; cbn [negb bind]; [ | exists false; reflexivity].
  apply Nat.eqb_eq in Hnm.
  destruct (for_each_scan_point_total
              (Beam_operator_eq_scan_point (Beam_obj da) (Beam_obj db) 1e-6)
              n 0) as [r Hr].
  - intros k Hk. unfold Beam_operator_eq_scan_point.
    cbn [get_s0_at_scan_point].
    rewrite (Beam_get_s0_at_scan_point_nth da k) by (subst n; lia).
    rewrite (Beam_get_s0_at_scan_point_nth db k) by (subst n m; lia).
    cbn [bind]. destruct (Rgtb _ _); eexists; reflexivity.
  - rewrite Hr. destruct r; cbn [negb bind];
      [exact Hstatic | exists false; reflexivity].
Qed.

(** C10, as the code has it.  [mono == poly] never answers true.  It raises
    the "no fixed s0" error when the monochromatic beam has scan points
    (the scan-point count of the right-hand side is read), and the "no
    fixed wavelength" error when it has none and the two directions are
    within 1e-6 of each other (the wavelength of the right-hand side is
    read).  When it has none and the directions are further apart, the
    conjunction stops at its first operand and the answer is false, without
    error.  [poly == mono] answers without error. *)
Theorem mono_eq_poly (dm dp : BeamData) :
  let angle :=
    Rabs (angle_safe (direction_ dm) (direction_ dp)) in
  operator_eq (Beam_obj dm) (PolychromaticBeam_obj dp) <> Ok true
  /\ (s0_at_scan_points_ dm <> [] ->
      operator_eq (Beam_obj dm) (PolychromaticBeam_obj dp)
      = Throw (dxtbx_error no_fixed_s0))
  /\ (s0_at_scan_points_ dm = [] -> angle <= 1e-6 ->
      operator_eq (Beam_obj dm) (PolychromaticBeam_obj dp)
      = Throw (dxtbx_error no_fixed_wavelength))
  /\ (s0_at_scan_points_ dm = [] -> 1e-6 < angle ->
      operator_eq (Beam_obj dm) (PolychromaticBeam_obj dp) = Ok false)
  /\ exists r, operator_eq (PolychromaticBeam_obj dp) (Beam_obj dm) = Ok r.
Proof.
  cbv zeta.
  assert (Hscan : s0_at_scan_points_ dm <> [] ->
            operator_eq (Beam_obj dm) (PolychromaticBeam_obj dp)
            = Throw (dxtbx_error no_fixed_s0)).
  { intros Hne.
    unfold operator_eq, Beam_operator_eq, Beam_operator_eq_scan_points.
    cbn [get_num_scan_points bind]. unfold Beam_get_num_scan_points.
    destruct (s0_at_scan_points_ dm); [contradiction | reflexivity]. }
  assert (Hnear : s0_at_scan_points_ dm = [] ->
            Rabs (angle_safe (direction_ dm) (direction_ dp)) <= 1e-6 ->
            operator_eq (Beam_obj dm) (PolychromaticBeam_obj dp)
            = Throw (dxtbx_error no_fixed_wavelength)).
  { intros Hnil Hangle.
    unfold operator_eq, Beam_operator_eq, Beam_operator_eq_scan_points.
    cbn [get_num_scan_points bind]. unfold Beam_get_num_scan_points.
    rewrite Hnil. cbn [List.length Nat.ltb Nat.leb bind negb data].
    unfold Beam_operator_eq_static.
    change (get_sample_to_source_direction (PolychromaticBeam_obj dp))
      with (direction_ dp).
    rewrite (proj2 (Rleb_true_iff _ _) Hangle). reflexivity. }
  assert (Hfar : s0_at_scan_points_ dm = [] ->
            1e-6 < Rabs (angle_safe (direction_ dm) (direction_ dp)) ->
            operator_eq (Beam_obj dm) (PolychromaticBeam_obj dp) = Ok false).
  { intros Hnil Hangle.
    unfold operator_eq, Beam_operator_eq, Beam_operator_eq_scan_points.
    cbn [get_num_scan_points bind]. unfold Beam_get_num_scan_points.
    rewrite Hnil. cbn [List.length Nat.ltb Nat.leb bind negb data].
    unfold Beam_operator_eq_static.
    change (get_sample_to_source_direction (PolychromaticBeam_obj dp))
      with (direction_ dp).
    rewrite (proj2 (Rleb_false_iff _ _) Hangle). reflexivity. }
  split; [ | split; [exact Hscan | split; [exact Hnear | split; [exact Hfar | ]]]].
  - destruct (s0_at_scan_points_ dm) as [ | p l] eqn:Hl.
    + destruct (Rle_dec (Rabs (angle_safe (direction_ dm) (direction_ dp))) 1e-6)
        as [Hle | Hgt].
      * rewrite (Hnear eq_refl Hle). discriminate.
      * rewrite (Hfar eq_refl) by lra. discriminate.
    + rewrite Hscan by discriminate. discriminate.
  - apply PolychromaticBeam_operator_eq_total.
Qed.

Lemma mono_eq_poly_witness :
  operator_eq (Beam_obj Beam_with_one_scan_point)
    (PolychromaticBeam_obj PolychromaticBeam_default)
  = Throw (dxtbx_error no_fixed_s0)
  /\ operator_eq (Beam_obj Beam_new)
       (PolychromaticBeam_obj PolychromaticBeam_default)
     = Throw (dxtbx_error no_fixed_wavelength)
  /\ operator_eq (Beam_obj Beam_new)
       (PolychromaticBeam_obj PolychromaticBeam_along_x)
     = Ok false.
Proof.
  split; [ | split].
  - apply (mono_eq_poly Beam_with_one_scan_point PolychromaticBeam_default).
    discriminate.
  - apply (mono_eq_poly Beam_new PolychromaticBeam_default);
      [reflexivity | ].
    cbn [Beam_new PolychromaticBeam_default direction_].
    rewrite angle_safe_self by (rewrite length_001; lra).
    rewrite Rabs_R0. lra.
  - apply (mono_eq_poly Beam_new PolychromaticBeam_along_x);
      [reflexivity | ].
    cbn [Beam_new PolychromaticBeam_along_x PolychromaticBeam_default
           upd_direction direction_].
    rewrite angle_safe_z_x. pose proof PI2_1.
    rewrite Rabs_pos_eq by lra. lra.
Defined.

(** C10 as stated fails when the directions differ: the default
    monochromatic beam compared with a polychromatic beam along x answers
    false, and no error is raised. *)
Lemma mono_eq_poly_can_return_false :
  operator_eq (Beam_obj Beam_new)
    (PolychromaticBeam_obj PolychromaticBeam_along_x)
  = Ok false.
Proof.
  unfold operator_eq, Beam_operator_eq, Beam_operator_eq_scan_points.
  cbn [get_num_scan_points bind Beam_get_num_scan_points Beam_new
         s0_at_scan_points_ List.length Nat.ltb Nat.leb negb data].
  unfold Beam_operator_eq_static.
  change (get_sample_to_source_direction
            (PolychromaticBeam_obj PolychromaticBeam_along_x))
    with (mk_vec3 1 0 0).
  change (direction_ Beam_new) with (mk_vec3 0 0 1).
  rewrite angle_safe_z_x.
  assert (H : Rleb (Rabs (PI / 2)) 1e-6 = false).
  { apply Rleb_false_iff. pose proof PI2_1. rewrite Rabs_pos_eq by lra. lra. }
  rewrite H. reflexivity.
Qed.

(** ** Comparisons of polychromatic beams *)

Lemma Rleb_abs_far (x y eps : R) : eps < Rabs (x - y) -> Rleb (Rabs (x - y)) eps = false.
Proof. intros H. apply Rleb_false_iff. exact H. Qed.

(** C4 at a failing input.  Two polychromatic beams that differ only in
    their divergence, by 1: the similarity overload with a divergence
    tolerance of 1e-6 answers true, although strict equality, which does
    compare the divergences, answers false. *)
Theorem polychromatic_is_similar_to_ignores_divergence :
  Rabs (divergence_ PolychromaticBeam_default
        - divergence_ PolychromaticBeam_divergent) > 1e-6
  /\ PolychromaticBeam_is_similar_to
       (PolychromaticBeam_obj PolychromaticBeam_default)
       (PolychromaticBeam_obj PolychromaticBeam_divergent)
       1e-6 1e-6 1e-6 1e-6 1e-6 1e-6 1e-6 1e-6
     = Ok true
  /\ operator_eq
       (PolychromaticBeam_obj PolychromaticBeam_default)
       (PolychromaticBeam_obj PolychromaticBeam_divergent)
     = Ok false.
Proof.
  assert (Hdiv : Rabs (0 - 1) > 1e-6).
  { replace (0 - 1) with (- (1)) by ring. rewrite Rabs_Ropp, Rabs_R1. lra. }
  assert (He : 0 <= 1e-6) by lra.
  assert (Hz : 0 < Vec3.length (mk_vec3 0 0 1)) by (rewrite length_001; lra).
  assert (Hy : 0 < Vec3.length (mk_vec3 0 1 0)) by (rewrite length_010; lra).
  split; [exact Hdiv | split].
  - unfold PolychromaticBeam_is_similar_to.
    cbv [get_sample_to_source_direction get_polarization_normal
           get_polarization_fraction get_flux get_transmission
           get_sample_to_source_distance get_probe
           Beam_get_sample_to_source_direction Beam_get_polarization_normal
           Beam_get_polarization_fraction Beam_get_flux Beam_get_transmission
           Beam_get_sample_to_source_distance Beam_get_probe data
           PolychromaticBeam_divergent PolychromaticBeam_default
           Beam_set_divergence upd_divergence direction_
           polarization_normal_ polarization_fraction_ flux_ transmission_
           probe_ sample_to_source_distance_].
    rewrite !(Rleb_abs_angle_self _ _ He) by assumption.
    rewrite !(Rleb_abs_diff_same _ _ He). reflexivity.
  - unfold operator_eq, PolychromaticBeam_operator_eq.
    cbv [get_sample_to_source_direction get_polarization_normal
           get_polarization_fraction get_flux get_transmission
           get_divergence get_sigma_divergence
           get_sample_to_source_distance get_probe
           Beam_get_sample_to_source_direction Beam_get_polarization_normal
           Beam_get_polarization_fraction Beam_get_flux Beam_get_transmission
           Beam_get_divergence Beam_get_sigma_divergence
           Beam_get_sample_to_source_distance Beam_get_probe data
           PolychromaticBeam_divergent PolychromaticBeam_default
           Beam_set_divergence upd_divergence direction_ divergence_
           sigma_divergence_
           polarization_normal_ polarization_fraction_ flux_ transmission_
           probe_ sample_to_source_distance_].
    rewrite !(Rleb_abs_angle_self _ _ He) by assumption.
    rewrite (Rleb_abs_far 0 1 1e-6) by exact Hdiv. reflexivity.
Qed.

(** The answer of [PolychromaticBeam::is_similar_to] depends neither on the
    two divergence tolerances nor on the divergences of the beams. *)
Lemma PolychromaticBeam_is_similar_to_divergence_blind
    (this rhs : BeamData) (dt pnt pft divt sdivt ft tt st : R)
    (div sdiv div' sdiv' divt' sdivt' : R) :
  PolychromaticBeam_is_similar_to
    (PolychromaticBeam_obj
       (upd_sigma_divergence (upd_divergence this div) sdiv))
    (PolychromaticBeam_obj
       (upd_sigma_divergence (upd_divergence rhs div') sdiv'))
    dt pnt pft divt' sdivt' ft tt st
  = PolychromaticBeam_is_similar_to (PolychromaticBeam_obj this)
      (PolychromaticBeam_obj rhs) dt pnt pft divt sdivt ft tt st.
Proof. reflexivity. Qed.

(** ** Similarity is monotonic in its tolerances *)

Lemma Ok_Rleb_mono (x t t' : R) :
  t <= t' -> Ok (Rleb x t) = Ok true -> Ok (Rleb x t') = Ok true.
Proof.
  intros Hle H. injection H as H. rewrite (Rleb_mono x t t' Hle H). reflexivity.
Qed.

Lemma wavelength_check_mono (rhs : BeamBase) (x t t' : R) :
  t <= t' ->
  (w <- get_wavelength rhs ;; Ok (Rleb (Rabs (x - w)) t)) = Ok true ->
  (w <- get_wavelength rhs ;; Ok (Rleb (Rabs (x - w)) t')) = Ok true.
Proof.
  intros Hle. destruct (get_wavelength rhs) as [w | e]; cbn [bind].
  - apply Ok_Rleb_mono. exact Hle.
  - discriminate.
Qed.

Lemma Beam_is_similar_to_scan_point_mono (this rhs : BeamBase)
    (wt dt wt' dt' : R) (i : nat) :
  wt <= wt' -> dt <= dt' ->
  Beam_is_similar_to_scan_point this rhs wt dt i = Ok true ->
  Beam_is_similar_to_scan_point this rhs wt' dt' i = Ok true.
Proof.
  intros Hw Hd. unfold Beam_is_similar_to_scan_point.
  destruct (get_s0_at_scan_point this i) as [a | e]; cbn [bind];
    [ | discriminate].
  destruct (get_s0_at_scan_point rhs i) as [b | e]; cbn [bind];
    [ | discriminate].
  destruct (Rgtb _ dt) eqn:Hdir; [discriminate | ].
  rewrite (Rgtb_mono _ dt dt' Hd Hdir).
  destruct (Rgtb _ wt) eqn:Hwl; [discriminate | ].
  rewrite (Rgtb_mono _ wt wt' Hw Hwl). reflexivity.
Qed.

Lemma Beam_is_similar_to_scan_points_mono (this rhs : BeamBase)
    (wt dt wt' dt' : R) :
  wt <= wt' -> dt <= dt' ->
  Beam_is_similar_to_scan_points this rhs wt dt = Ok true ->
  Beam_is_similar_to_scan_points this rhs wt' dt' = Ok true.
Proof.
  intros Hw Hd. unfold Beam_is_similar_to_scan_points.
  destruct (get_num_scan_points this) as [n | e]; cbn [bind];
    [ | discriminate].
  destruct (get_num_scan_points rhs) as [m | e]; cbn [bind];
    [ | discriminate].
  destruct (negb (n =? m)%nat); [discriminate | ].
  intros Hloop. apply for_each_scan_point_all. intros k Hk.
  apply (Beam_is_similar_to_scan_point_mono this rhs wt dt wt' dt' k Hw Hd).
  apply (for_each_scan_point_true _ _ _ Hloop k Hk).
Qed.

(** Both [Beam::is_similar_to] answer true exactly when the scan-point
    checks pass and the static checks answer true. *)
Lemma scan_then_static_true (scan static : result bool) :
  (scan_ok <- scan ;; if negb scan_ok then Ok false else static) = Ok true
  <-> scan = Ok true /\ static = Ok true.
Proof.
  destruct scan as [[ | ] | e]; cbn [bind negb]; split; intros H;
    try discriminate; try (destruct H; discriminate); tauto.
Qed.

(** C8. Each body of [is_similar_to] is monotonic in its tolerances: if it
    answers true for the tolerances [t], it answers true for any
    tolerances [t'] that are at least as large. *)
Theorem is_similar_to_monotonic (o : overload) (a b : BeamBase)
    (t t' : tolerances) :
  tolerances_le t t' ->
  call_is_similar_to o a b t = Ok true ->
  call_is_similar_to o a b t' = Ok true.
Proof.
  intros (Hwl & Hdir & Hpn & Hpf & Hdiv & Hsdiv & Hfl & Htr & Hst).
  destruct o; cbn [call_is_similar_to].
  - unfold Beam_is_similar_to_core. rewrite !scan_then_static_true.
    intros [Hscan Hstatic]. split.
    + exact (Beam_is_similar_to_scan_points_mono a b _ _ _ _ Hwl Hdir Hscan).
    + revert Hstatic. rewrite !and_then_true.
      intros ((((H1 & H2) & H3) & H4) & H5).
      repeat split; eauto using Ok_Rleb_mono, wavelength_check_mono.
  - unfold Beam_is_similar_to. rewrite !scan_then_static_true.
    intros [Hscan Hstatic]. split.
    + exact (Beam_is_similar_to_scan_points_mono a b _ _ _ _ Hwl Hdir Hscan).
    + revert Hstatic. rewrite !and_then_true.
      intros ((((((((H1 & H2) & H3) & H4) & H5) & H6) & H7) & H8) & H9).
      repeat split; eauto using Ok_Rleb_mono, wavelength_check_mono.
  - unfold PolychromaticBeam_is_similar_to_core, PolychromaticBeam_is_similar_to.
    rewrite !and_then_true.
    intros ((((((H1 & H2) & H3) & H4) & H5) & H6) & H7).
    repeat split; eauto using Ok_Rleb_mono.
  - unfold PolychromaticBeam_is_similar_to. rewrite !and_then_true.
    intros ((((((H1 & H2) & H3) & H4) & H5) & H6) & H7).
    repeat split; eauto using Ok_Rleb_mono.
Qed.

(** The default beam is similar to itself under zero tolerances. *)
Lemma Beam_new_similar_to_itself_zero :
  call_is_similar_to Beam_extended (Beam_obj Beam_new) (Beam_obj Beam_new)
    (all_tolerances 0) = Ok true.
Proof.
  assert (He : 0 <= 0) by lra.
  assert (Hz : 0 < Vec3.length (mk_vec3 0 0 1)) by (rewrite length_001; lra).
  assert (Hy : 0 < Vec3.length (mk_vec3 0 1 0)) by (rewrite length_010; lra).
  cbn [call_is_similar_to all_tolerances wavelength_tolerance
         direction_tolerance polarization_normal_tolerance
         polarization_fraction_tolerance divergence_tolerance
         sigma_divergence_tolerance flux_tolerance transmission_tolerance
         sample_to_source_tolerance].
  unfold Beam_is_similar_to. apply scan_then_static_true. split.
  - reflexivity.
  - cbv [get_sample_to_source_direction get_polarization_normal
           get_polarization_fraction get_flux get_transmission
           get_divergence get_sigma_divergence get_wavelength
           get_sample_to_source_distance
           Beam_get_sample_to_source_direction Beam_get_polarization_normal
           Beam_get_polarization_fraction Beam_get_flux Beam_get_transmission
           Beam_get_divergence Beam_get_sigma_divergence Beam_get_wavelength
           Beam_get_sample_to_source_distance data Beam_new
           direction_ divergence_ sigma_divergence_ wavelength_
           polarization_normal_ polarization_fraction_ flux_ transmission_
           sample_to_source_distance_].
    cbn [bind].
    rewrite !(Rleb_abs_angle_self _ _ He) by assumption.
    rewrite !(Rleb_abs_diff_same _ _ He). reflexivity.
Qed.

(** The instance of the specification: what is similar under zero
    tolerances is similar under the defaults of 1e-6. *)
Lemma is_similar_to_monotonic_witness :
  call_is_similar_to Beam_extended (Beam_obj Beam_new) (Beam_obj Beam_new)
    (all_tolerances 1e-6) = Ok true.
Proof.
  apply (is_similar_to_monotonic Beam_extended (Beam_obj Beam_new)
           (Beam_obj Beam_new) (all_tolerances 0) (all_tolerances 1e-6)).
  - unfold tolerances_le, all_tolerances. simpl. lra.
  - exact Beam_new_similar_to_itself_zero.
Defined.

(** ** Invariants of reachable beams *)

Ltac crunch_assert H :=
  repeat match type of H with
         | context [DXTBX_ASSERT ?c ?t] =>
             let E := fresh "E" in
             destruct c eqn:E; cbn [DXTBX_ASSERT bind] in H
         end.

Section Invariants.

Variable rot : vec3 -> vec3 -> R -> vec3.






Lemma distance_nonneg_after (b : BeamBase) (o : operation) :
  0 <= sample_to_source_distance_ (data b) ->
  0 <= sample_to_source_distance_ (data (after rot b o)).
Proof.
  intros Hb. unfold after.
  destruct (perform rot b o) as [b' | e] eqn:Hp; [ | exact Hb].
  destruct o; cbn [perform] in Hp;
    unfold set_direction, set_wavelength, set_s0, set_unit_s0,
      set_s0_at_scan_points, set_sample_to_source_distance,
      reset_scan_points, lift, Beam_set_direction, Beam_set_s0,
      Beam_set_unit_s0, Beam_set_sample_to_source_distance,
      PolychromaticBeam_set_wavelength, PolychromaticBeam_set_s0,
      PolychromaticBeam_set_s0_at_scan_points,
      PolychromaticBeam_reset_scan_points in Hp;
    destruct b as [d | d]; cbn [data bind] in Hp, Hb;
    crunch_assert Hp; try discriminate;
    injection Hp as <-; try exact Hb;
    apply Rleb_true_iff; assumption.
Qed.

Lemma distance_nonneg_construct (c : constructor_call) (b : BeamBase) :
  distance_argument_checked c ->
  construct c = Ok b ->
  0 <= sample_to_source_distance_ (data b).
Proof.
  intros Hc Hb.
  destruct c; cbn [distance_argument_checked] in Hc; cbn [construct] in Hb;
    unfold mono, poly, Beam_new_s0, Beam_new_direction,
      Beam_new_s0_divergence, Beam_new_direction_divergence, Beam_new_all,
      Beam_new_all_distance, PolychromaticBeam_new,
      PolychromaticBeam_new_direction,
      PolychromaticBeam_new_direction_distance,
      PolychromaticBeam_new_divergence, PolychromaticBeam_new_all,
      PolychromaticBeam_new_all_distance, Beam_set_direction,
      Beam_set_sample_to_source_distance in Hb;
    crunch_assert Hb; try discriminate;
    injection Hb as <-; cbn; try lra; try exact Hc;
    apply Rleb_true_iff; assumption.
Qed.

(** Apart from [Beam]'s constructor with a distance argument, every path
    keeps the sample-to-source distance nonnegative. *)
Lemma distance_nonneg_elsewhere (c : constructor_call)
    (ops : list operation) (b : BeamBase) :
  distance_argument_checked c ->
  construct c = Ok b ->
  0 <= sample_to_source_distance_ (data (after_all rot b ops)).
Proof.
  intros Hc Hb. pose proof (distance_nonneg_construct c b Hc Hb) as H0.
  clear Hc Hb. revert b H0.
  induction ops as [ | o ops IH]; intros b H0; [exact H0 | ].
  cbn [after_all fold_left]. apply IH. apply distance_nonneg_after. exact H0.
Qed.

End Invariants.



(** On doubles the constructor from a wave vector stores the wavelength 0
    too, when the computed length of the vector is infinite. *)
Lemma Beam_from_huge_s0_has_wavelength_zero :
  exists d,
    Double.Beam_new_s0 Double.huge_x = Ok d
    /\ Double.wavelength_ d = Double.zero.
Proof. eexists. split; vm_compute; reflexivity. Qed.

(** C6 at a failing input.  [Beam]'s constructor that takes a
    sample-to-source distance stores -1 as it is given, where
    [set_sample_to_source_distance] and the corresponding constructor of
    [PolychromaticBeam] fail on the same argument. *)
Theorem Beam_constructor_stores_negative_distance :
  (exists d,
     Beam_new_all_distance (mk_vec3 0 0 1) 1 0 0 (mk_vec3 0 1 0) 0.999 0 1
       xray (-1) = Ok d
     /\ sample_to_source_distance_ d = -1)
  /\ set_sample_to_source_distance (Beam_obj Beam_new) (-1)
     = Throw (assertion_failure "sample_to_source_distance >= 0.")
  /\ PolychromaticBeam_new_all_distance (mk_vec3 0 0 1) 0 0 (mk_vec3 0 1 0)
       0.999 0 1 xray (-1)
     = Throw (assertion_failure "sample_to_source_distance >= 0.").
Proof.
  assert (Hz : 0 < Vec3.length (mk_vec3 0 0 1)) by (rewrite length_001; lra).
  split; [ | split].
  - unfold Beam_new_all_distance. rewrite (assert_length_pos _ _ Hz).
    eexists. split; reflexivity.
  - unfold set_sample_to_source_distance, lift,
      Beam_set_sample_to_source_distance.
    rewrite assert_distance_neg by lra. reflexivity.
  - unfold PolychromaticBeam_new_all_distance,
      Beam_set_sample_to_source_distance.
    rewrite (assert_length_pos _ _ Hz). cbn [bind].
    rewrite assert_distance_neg by lra. reflexivity.
Qed.

(** * Further properties *)

(** ** Probe names *)

(** X1. The name of a probe maps back to the probe:
    [get_probe_from_name(get_probe_name())] is the probe of the beam, for
    each of the three probes. *)
Theorem probe_name_roundtrip (b : BeamBase) :
  Beam_get_probe_from_name (get_probe_name b) = Ok (get_probe b).
Proof.
  unfold get_probe_name, Beam_get_probe_name, get_probe, Beam_get_probe.
  destruct (probe_ (data b)); reflexivity.
Qed.

(** X2. [get_probe_from_name] accepts exactly the three names: when it
    returns a probe, the name given is the name of that probe, and on any
    other string it throws "Unknown probe " followed by the string. *)
Theorem probe_from_name_cases (s : string) :
  (forall p, Beam_get_probe_from_name s = Ok p -> Probe_name p = s)
  /\ ((forall p, Probe_name p <> s) ->
      Beam_get_probe_from_name s
      = Throw (dxtbx_error (String.append "Unknown probe " s))).
Proof.
  unfold Beam_get_probe_from_name. split.
  - intros p.
    destruct (String.eqb_spec s "x-ray") as [-> | _];
      [intros H; injection H as <-; reflexivity | ].
    destruct (String.eqb_spec s "electron") as [-> | _];
      [intros H; injection H as <-; reflexivity | ].
    destruct (String.eqb_spec s "neutron") as [-> | _];
      [intros H; injection H as <-; reflexivity | ].
    discriminate.
  - intros Hno.
    destruct (String.eqb_spec s "x-ray") as [-> | _];
      [exfalso; exact (Hno xray eq_refl) | ].
    destruct (String.eqb_spec s "electron") as [-> | _];
      [exfalso; exact (Hno electron eq_refl) | ].
    destruct (String.eqb_spec s "neutron") as [-> | _];
      [exfalso; exact (Hno neutron eq_refl) | ].
    reflexivity.
Qed.

Lemma probe_from_name_cases_witness :
  Probe_name electron = "electron"%string
  /\ Beam_get_probe_from_name "xray"
     = Throw (dxtbx_error "Unknown probe xray").
Proof.
  split.
  - apply (proj1 (probe_from_name_cases "electron") electron). reflexivity.
  - apply (proj2 (probe_from_name_cases "xray")).
    intros p; destruct p; discriminate.
Defined.

(** ** Scan points *)

(** X3. On a monochromatic beam, [set_s0_at_scan_points] replaces the
    stored sequence wholesale, whatever was stored before: afterwards the
    count is the length of the sequence given, [get_s0_at_scan_points]
    returns that sequence, an index below the count reads the element at
    that index, and any other index fails the assertion (every index,
    when the sequence is empty, which is also the state that
    [reset_scan_points] leaves). *)
Theorem set_s0_at_scan_points_lookup (d : BeamData) (l : list vec3) (i : nat) :
  exists b',
    set_s0_at_scan_points (Beam_obj d) l = Ok b'
    /\ get_num_scan_points b' = Ok (List.length l)
    /\ get_s0_at_scan_points b' = Ok l
    /\ ((i < List.length l)%nat ->
        get_s0_at_scan_point b' i = Ok (nth i l Vec3.zero)
        /\ In (nth i l Vec3.zero) l)
    /\ ((List.length l <= i)%nat ->
        get_s0_at_scan_point b' i
        = Throw (assertion_failure "index < s0_at_scan_points_.size()"))
    /\ (l = [] -> reset_scan_points (Beam_obj d) = Ok b').
Proof.
  eexists. split; [reflexivity | ].
  split; [reflexivity | ]. split; [reflexivity | ].
  split; [ | split; [ | intros ->; reflexivity]].
  - intros Hi. split; [ | apply nth_In; exact Hi].
    cbn [get_s0_at_scan_point]. apply Beam_get_s0_at_scan_point_nth. exact Hi.
  - intros Hi. cbn [get_s0_at_scan_point]. unfold Beam_get_s0_at_scan_point.
    rewrite DXTBX_ASSERT_false; [reflexivity | ].
    apply Nat.ltb_ge. exact Hi.
Qed.

Lemma set_s0_at_scan_points_lookup_witness :
  exists b',
    set_s0_at_scan_points (Beam_obj Beam_with_one_scan_point)
      [mk_vec3 1 0 0; mk_vec3 0 1 0] = Ok b'
    /\ get_s0_at_scan_point b' 1 = Ok (mk_vec3 0 1 0).
Proof.
  destruct (set_s0_at_scan_points_lookup Beam_with_one_scan_point
              [mk_vec3 1 0 0; mk_vec3 0 1 0] 1)
    as (b' & Hset & _ & _ & Hin & _).
  exists b'. split; [exact Hset | ].
  apply Hin. simpl. lia.
Defined.

(** ** Wave vectors *)

Lemma normalize_neg (v : vec3) :
  Vec3.normalize (Vec3.neg v) = Vec3.neg (Vec3.normalize v).
Proof.
  unfold Vec3.normalize. rewrite neg_length. destruct v as [x y z].
  cbv [Vec3.div Vec3.neg vx vy vz]. unfold Rdiv.
  f_equal; ring.
Qed.

Lemma neg_involutive (v : vec3) : Vec3.neg (Vec3.neg v) = v.
Proof. destruct v as [x y z]. cbv [Vec3.neg vx vy vz]. f_equal; ring. Qed.

(** X6. The constructor from a wave vector agrees with the default
    constructor followed by [set_s0]: when the computed length of [s0] is
    positive both succeed and build the same beam, and otherwise both fail
    the same assertion. *)
Theorem Beam_from_s0 (s0 : vec3) :
  (0 < Vec3.length s0 ->
   exists d,
     Beam_new_s0 s0 = Ok d
     /\ set_s0 (Beam_obj Beam_new) s0 = Ok (Beam_obj d))
  /\ (~ 0 < Vec3.length s0 ->
      Beam_new_s0 s0 = Throw (assertion_failure "s0.length() > 0")
      /\ set_s0 (Beam_obj Beam_new) s0
         = Throw (assertion_failure "s0.length() > 0")).
Proof.
  split.
  - intros Hl. unfold Beam_new_s0, set_s0, lift, Beam_set_s0.
    rewrite !(assert_length_pos s0 _ Hl). cbn [bind with_data].
    eexists. split; reflexivity.
  - intros Hl.
    assert (Hf : Rgtb (Vec3.length s0) 0 = false)
      by (apply Rgtb_false_iff; lra).
    unfold Beam_new_s0, set_s0, lift, Beam_set_s0.
    rewrite !(DXTBX_ASSERT_false _ _ Hf). split; reflexivity.
Qed.

Lemma Beam_from_s0_witness :
  (exists d,
     Beam_new_s0 (mk_vec3 0 3 0) = Ok d
     /\ set_s0 (Beam_obj Beam_new) (mk_vec3 0 3 0) = Ok (Beam_obj d))
  /\ Beam_new_s0 Vec3.zero = Throw (assertion_failure "s0.length() > 0").
Proof.
  split.
  - apply (proj1 (Beam_from_s0 (mk_vec3 0 3 0))).
    rewrite length_axis_y by lra. lra.
  - apply (proj2 (Beam_from_s0 Vec3.zero)). rewrite length_zero. lra.
Defined.

(** ** The unit wave vector *)

(** X7. [set_unit_s0] and [get_unit_s0] are each other's inverse up to
    normalization, on a beam of either class: after [set_unit_s0(u)] with
    [u] of positive computed length, [get_unit_s0] returns [u] divided by
    that length; and on a beam whose direction has a computed length of
    exactly one, [set_unit_s0(get_unit_s0())] gives the same beam. *)
Theorem unit_s0_roundtrip (b : BeamBase) (u : vec3) :
  (0 < Vec3.length u ->
   exists b', set_unit_s0 b u = Ok b'
              /\ get_unit_s0 b' = Vec3.div u (Vec3.length u))
  /\ (Vec3.length (direction_ (data b)) = 1 ->
      set_unit_s0 b (get_unit_s0 b) = Ok b).
Proof.
  split.
  - intros Hl.
    unfold set_unit_s0, lift, Beam_set_unit_s0.
    rewrite (assert_length_pos u _ Hl). cbn [bind].
    eexists. split; [reflexivity | ].
    unfold get_unit_s0, Beam_get_unit_s0. destruct b;
      cbn [with_data data upd_direction direction_]; apply neg_involutive.
  - intros Hdir. unfold set_unit_s0, lift, Beam_set_unit_s0, get_unit_s0,
      Beam_get_unit_s0.
    rewrite assert_length_pos by (rewrite neg_length, Hdir; lra).
    cbn [bind]. rewrite normalize_neg, neg_involutive.
    rewrite (normalize_unit _ Hdir).
    destruct b as [d | d]; destruct d; reflexivity.
Qed.

Lemma unit_s0_roundtrip_witness :
  (exists b', set_unit_s0 (Beam_obj Beam_new) (mk_vec3 0 5 0) = Ok b'
              /\ get_unit_s0 b' = mk_vec3 (0 / 5) (5 / 5) (0 / 5))
  /\ set_unit_s0 (PolychromaticBeam_obj PolychromaticBeam_default)
       (get_unit_s0 (PolychromaticBeam_obj PolychromaticBeam_default))
     = Ok (PolychromaticBeam_obj PolychromaticBeam_default).
Proof.
  split.
  - destruct (proj1 (unit_s0_roundtrip (Beam_obj Beam_new) (mk_vec3 0 5 0)))
      as (b' & Hset & Hget).
    + rewrite length_axis_y by lra. lra.
    + exists b'. split; [exact Hset | ]. rewrite Hget.
      rewrite length_axis_y by lra. reflexivity.
  - apply (proj2 (unit_s0_roundtrip
                    (PolychromaticBeam_obj PolychromaticBeam_default)
                    Vec3.zero)).
    exact length_001.
Defined.

(** ** Symmetry of the comparisons *)

Lemma dot_sym (a b : vec3) : Vec3.dot a b = Vec3.dot b a.
Proof. unfold Vec3.dot. ring. Qed.

Lemma angle_safe_sym (a b : vec3) : angle_safe a b = angle_safe b a.
Proof. unfold angle_safe. rewrite dot_sym. reflexivity. Qed.

Lemma Probe_eqb_sym (p q : Probe) : Probe_eqb p q = Probe_eqb q p.
Proof. destruct p, q; reflexivity. Qed.

Lemma d_s0_sym (a b : vec3) : d_s0 a b = d_s0 b a.
Proof.
  rewrite !d_s0_L1.
  rewrite (Rabs_minus_sym (vx a)), (Rabs_minus_sym (vy a)),
    (Rabs_minus_sym (vz a)).
  reflexivity.
Qed.

Lemma for_each_scan_point_ext (body body' : nat -> result bool) (n j : nat) :
  (forall k, (j <= k < j + n)%nat -> body k = body' k) ->
  for_each_scan_point body j n = for_each_scan_point body' j n.
Proof.
  revert j. induction n as [ | n IH]; intros j Hext; [reflexivity | ].
  cbn [for_each_scan_point]. rewrite (Hext j) by lia.
  destruct (body' j) as [[ | ] | e]; cbn [bind]; try reflexivity.
  apply IH. intros k Hk. apply Hext. lia.
Qed.

Ltac unfold_getters :=
  cbv [get_sample_to_source_direction get_wavelength get_divergence
         get_sigma_divergence get_polarization_normal
         get_polarization_fraction get_flux get_transmission
         get_sample_to_source_distance get_probe
         Beam_get_sample_to_source_direction Beam_get_wavelength
         Beam_get_divergence Beam_get_sigma_divergence
         Beam_get_polarization_normal Beam_get_polarization_fraction
         Beam_get_flux Beam_get_transmission
         Beam_get_sample_to_source_distance Beam_get_probe
         PolychromaticBeam_get_wavelength data].

Ltac swap_operands da db :=
  rewrite ?(angle_safe_sym (direction_ da) (direction_ db)),
    ?(angle_safe_sym (polarization_normal_ da) (polarization_normal_ db)),
    ?(Rabs_minus_sym (wavelength_ da) (wavelength_ db)),
    ?(Rabs_minus_sym (divergence_ da) (divergence_ db)),
    ?(Rabs_minus_sym (sigma_divergence_ da) (sigma_divergence_ db)),
    ?(Rabs_minus_sym (polarization_fraction_ da) (polarization_fraction_ db)),
    ?(Rabs_minus_sym (flux_ da) (flux_ db)),
    ?(Rabs_minus_sym (transmission_ da) (transmission_ db)),
    ?(Rabs_minus_sym (sample_to_source_distance_ da)
        (sample_to_source_distance_ db)),
    ?(Probe_eqb_sym (probe_ da) (probe_ db)).

Lemma Beam_operator_eq_static_sym (da db : BeamData) (eps : R) :
  Beam_operator_eq_static da (Beam_obj db) eps
  = Beam_operator_eq_static db (Beam_obj da) eps.
Proof.
  unfold Beam_operator_eq_static. unfold_getters. cbn [bind].
  swap_operands da db. reflexivity.
Qed.

Lemma PolychromaticBeam_operator_eq_sym (a b : BeamBase) :
  PolychromaticBeam_operator_eq a b = PolychromaticBeam_operator_eq b a.
Proof.
  unfold PolychromaticBeam_operator_eq.
  unfold get_sample_to_source_direction, get_divergence,
    get_sigma_divergence, get_polarization_normal,
    get_polarization_fraction, get_flux, get_transmission,
    get_sample_to_source_distance, get_probe,
    Beam_get_sample_to_source_direction, Beam_get_divergence,
    Beam_get_sigma_divergence, Beam_get_polarization_normal,
    Beam_get_polarization_fraction, Beam_get_flux, Beam_get_transmission,
    Beam_get_sample_to_source_distance, Beam_get_probe.
  swap_operands (data a) (data b). reflexivity.
Qed.

Lemma Beam_operator_eq_scan_points_sym (da db : BeamData) (eps : R) :
  (s0_at_scan_points_ da = [] <-> s0_at_scan_points_ db = []) ->
  Beam_operator_eq_scan_points (Beam_obj da) (Beam_obj db) eps
  = Beam_operator_eq_scan_points (Beam_obj db) (Beam_obj da) eps.
Proof.
  intros Hboth. unfold Beam_operator_eq_scan_points.
  cbn [get_num_scan_points bind]. unfold Beam_get_num_scan_points.
  destruct (s0_at_scan_points_ da) as [ | pa la] eqn:Ha;
    destruct (s0_at_scan_points_ db) as [ | pb lb] eqn:Hb;
    try reflexivity;
    try (exfalso; destruct Hboth as [H1 H2];
         (discriminate (H1 eq_refl) || discriminate (H2 eq_refl))).
  set (n := List.length (pa :: la)). set (m := List.length (pb :: lb)).
  assert (Hn : (0 <? n)%nat = true) by reflexivity.
  assert (Hm : (0 <? m)%nat = true) by reflexivity.
  rewrite Hn, Hm, (Nat.eqb_sym m n).
  destruct (n =? m)%nat eqn:Hnm; cbn [negb]; [ | reflexivity].
  apply Nat.eqb_eq in Hnm. rewrite <- Hnm.
  apply for_each_scan_point_ext. intros k Hk.
  unfold Beam_operator_eq_scan_point. cbn [get_s0_at_scan_point].
  rewrite (Beam_get_s0_at_scan_point_nth da k)
    by (rewrite Ha; fold n; lia).
  rewrite (Beam_get_s0_at_scan_point_nth db k)
    by (rewrite Hb; fold m; lia).
  cbn [bind]. rewrite d_s0_sym. reflexivity.
Qed.

(** X9. Strict equality is symmetric between two polychromatic beams,
    and between two monochromatic beams that both have scan points or both
    have none; [!=] is then symmetric too. *)
Theorem operator_eq_symmetric (da db : BeamData) :
  operator_eq (PolychromaticBeam_obj da) (PolychromaticBeam_obj db)
  = operator_eq (PolychromaticBeam_obj db) (PolychromaticBeam_obj da)
  /\ ((s0_at_scan_points_ da = [] <-> s0_at_scan_points_ db = []) ->
      operator_eq (Beam_obj da) (Beam_obj db)
      = operator_eq (Beam_obj db) (Beam_obj da)
      /\ operator_ne (Beam_obj da) (Beam_obj db)
         = operator_ne (Beam_obj db) (Beam_obj da)).
Proof.
  split.
  - cbn [operator_eq]. apply PolychromaticBeam_operator_eq_sym.
  - intros Hboth.
    assert (H : operator_eq (Beam_obj da) (Beam_obj db)
                = operator_eq (Beam_obj db) (Beam_obj da)).
    { cbn [operator_eq]. unfold Beam_operator_eq.
      rewrite (Beam_operator_eq_scan_points_sym da db _ Hboth).
      cbn [data]. rewrite (Beam_operator_eq_static_sym da db). reflexivity. }
    split; [exact H | ]. unfold operator_ne. rewrite H. reflexivity.
Qed.

Lemma operator_eq_symmetric_witness :
  operator_eq (Beam_obj Beam_new) (Beam_obj (Beam_set_flux Beam_new 3))
  = operator_eq (Beam_obj (Beam_set_flux Beam_new 3)) (Beam_obj Beam_new).
Proof.
  apply (proj2 (operator_eq_symmetric Beam_new (Beam_set_flux Beam_new 3))).
  split; reflexivity.
Defined.

Lemma Beam_is_similar_to_scan_points_sym (a b : BeamBase) (wt dt : R) :
  Beam_is_similar_to_scan_points a b wt dt
  = Beam_is_similar_to_scan_points b a wt dt.
Proof.
  destruct a as [da | da], b as [db | db]; try reflexivity.
  unfold Beam_is_similar_to_scan_points.
  cbn [get_num_scan_points bind]. unfold Beam_get_num_scan_points.
  set (n := List.length (s0_at_scan_points_ da)).
  set (m := List.length (s0_at_scan_points_ db)).
  rewrite (Nat.eqb_sym m n).
  destruct (n =? m)%nat eqn:Hnm; cbn [negb]; [ | reflexivity].
  apply Nat.eqb_eq in Hnm. rewrite <- Hnm.
  apply for_each_scan_point_ext. intros k Hk.
  unfold Beam_is_similar_to_scan_point. cbn [get_s0_at_scan_point].
  rewrite (Beam_get_s0_at_scan_point_nth da k) by (fold n; lia).
  rewrite (Beam_get_s0_at_scan_point_nth db k) by (fold m; lia).
  cbn [bind]. cbv zeta.
  rewrite (angle_safe_sym (Vec3.normalize (nth k (s0_at_scan_points_ da) Vec3.zero))).
  rewrite (Rabs_minus_sym (1 / Vec3.length (nth k (s0_at_scan_points_ da) Vec3.zero))).
  reflexivity.
Qed.

(** X10. Similarity is symmetric: each of the four bodies of
    [is_similar_to] gives the same answer, or throws the same error, when
    the two beams are exchanged, whatever their classes. *)
Theorem is_similar_to_symmetric (o : overload) (a b : BeamBase)
    (t : tolerances) :
  call_is_similar_to o a b t = call_is_similar_to o b a t.
Proof.
  destruct o; cbn [call_is_similar_to].
  - unfold Beam_is_similar_to_core.
    rewrite (Beam_is_similar_to_scan_points_sym a b).
    destruct a as [da | da], b as [db | db]; try reflexivity.
    unfold_getters. cbn [bind]. swap_operands da db. reflexivity.
  - unfold Beam_is_similar_to.
    rewrite (Beam_is_similar_to_scan_points_sym a b).
    destruct a as [da | da], b as [db | db]; try reflexivity.
    unfold_getters. cbn [bind]. swap_operands da db. reflexivity.
  - unfold PolychromaticBeam_is_similar_to_core,
      PolychromaticBeam_is_similar_to.
    unfold get_sample_to_source_direction, get_polarization_normal,
      get_polarization_fraction, get_flux, get_transmission,
      get_sample_to_source_distance, get_probe,
      Beam_get_sample_to_source_direction, Beam_get_polarization_normal,
      Beam_get_polarization_fraction, Beam_get_flux, Beam_get_transmission,
      Beam_get_sample_to_source_distance, Beam_get_probe.
    swap_operands (data a) (data b). reflexivity.
  - unfold PolychromaticBeam_is_similar_to.
    unfold get_sample_to_source_direction, get_polarization_normal,
      get_polarization_fraction, get_flux, get_transmission,
      get_sample_to_source_distance, get_probe,
      Beam_get_sample_to_source_direction, Beam_get_polarization_normal,
      Beam_get_polarization_fraction, Beam_get_flux, Beam_get_transmission,
      Beam_get_sample_to_source_distance, Beam_get_probe.
    swap_operands (data a) (data b). reflexivity.
Qed.

(** ** Similarity and the polychromatic beam *)

(** X11. [Beam::is_similar_to] cannot compare a polychromatic beam: with a
    polychromatic beam on either side, both of its overloads throw the "no
    fixed s0" error, because they read the scan-point count of both
    operands.  This is also what [is_similar_to] with nine tolerances does
    through [BeamBase &] on a polychromatic beam, which inherits that
    overload. *)
Theorem Beam_is_similar_to_polychromatic_throws
    (d : BeamData) (other : BeamBase) (t : tolerances) :
  let p := PolychromaticBeam_obj d in
  let unsupported := Throw (dxtbx_error no_fixed_s0) in
  call_is_similar_to Beam_core p other t = unsupported
  /\ call_is_similar_to Beam_extended p other t = unsupported
  /\ call_is_similar_to Beam_core other p t = unsupported
  /\ call_is_similar_to Beam_extended other p t = unsupported
  /\ is_similar_to p other t = unsupported.
Proof.
  cbv zeta. repeat split; try reflexivity; destruct other; reflexivity.
Qed.

(** ** Equality against similarity *)

(** X13. What is strictly equal is similar, for tolerances of at least
    1e-6: between two monochromatic beams without scan points, and between
    two polychromatic beams, a true [==] makes every overload of
    [is_similar_to] of that class answer true. *)
Theorem operator_eq_implies_similar (da db : BeamData) (t : tolerances) :
  tolerances_le (all_tolerances 1e-6) t ->
  (s0_at_scan_points_ da = [] -> s0_at_scan_points_ db = [] ->
   operator_eq (Beam_obj da) (Beam_obj db) = Ok true ->
   call_is_similar_to Beam_core (Beam_obj da) (Beam_obj db) t = Ok true
   /\ call_is_similar_to Beam_extended (Beam_obj da) (Beam_obj db) t = Ok true)
  /\ (operator_eq (PolychromaticBeam_obj da) (PolychromaticBeam_obj db)
      = Ok true ->
      call_is_similar_to Polychromatic_core (PolychromaticBeam_obj da)
        (PolychromaticBeam_obj db) t = Ok true
      /\ call_is_similar_to Polychromatic_extended (PolychromaticBeam_obj da)
           (PolychromaticBeam_obj db) t = Ok true).
Proof.
  intros (Hwl & Hdir & Hpn & Hpf & Hdiv & Hsdiv & Hfl & Htr & Hst).
  cbn [all_tolerances wavelength_tolerance direction_tolerance
         polarization_normal_tolerance polarization_fraction_tolerance
         divergence_tolerance sigma_divergence_tolerance flux_tolerance
         transmission_tolerance sample_to_source_tolerance] in *.
  split.
  - intros Ha Hb Heq.
    cbn [operator_eq] in Heq. unfold Beam_operator_eq in Heq.
    apply scan_then_static_true in Heq. destruct Heq as [_ Hstatic].
    unfold Beam_operator_eq_static in Hstatic.
    rewrite !and_then_true in Hstatic.
    destruct Hstatic
      as (((((((((H1 & H2) & H3) & H4) & H5) & H6) & H7) & H8) & H9) & H10).
    assert (Hscan : forall wt dt,
              Beam_is_similar_to_scan_points (Beam_obj da) (Beam_obj db) wt dt
              = Ok true).
    { intros wt dt. unfold Beam_is_similar_to_scan_points.
      cbn [get_num_scan_points bind]. unfold Beam_get_num_scan_points.
      rewrite Ha, Hb. reflexivity. }
    cbn [call_is_similar_to].
    unfold Beam_is_similar_to_core, Beam_is_similar_to.
    rewrite !scan_then_static_true, !and_then_true.
    repeat split; try apply Hscan; try exact H10;
      eauto using Ok_Rleb_mono, wavelength_check_mono.
  - intros Heq. cbn [operator_eq] in Heq.
    unfold PolychromaticBeam_operator_eq in Heq.
    rewrite !and_then_true in Heq.
    destruct Heq as ((((((((H1 & H2) & H3) & H4) & H5) & H6) & H7) & H8) & H9).
    cbn [call_is_similar_to].
    unfold PolychromaticBeam_is_similar_to_core,
      PolychromaticBeam_is_similar_to.
    rewrite !and_then_true.
    repeat split; try exact H9; try assumption;
      eauto using Ok_Rleb_mono.
Qed.

Lemma operator_eq_implies_similar_witness :
  call_is_similar_to Beam_extended (Beam_obj Beam_new) (Beam_obj Beam_new)
    (all_tolerances 1) = Ok true.
Proof.
  assert (Hle : tolerances_le (all_tolerances 1e-6) (all_tolerances 1)).
  { unfold tolerances_le, all_tolerances. simpl. lra. }
  apply (proj1 (operator_eq_implies_similar Beam_new Beam_new
                  (all_tolerances 1) Hle)).
  - reflexivity.
  - reflexivity.
  - apply Beam_operator_eq_refl.
    + change (direction_ Beam_new) with (mk_vec3 0 0 1).
      rewrite length_001. lra.
    + change (polarization_normal_ Beam_new) with (mk_vec3 0 1 0).
      rewrite length_010. lra.
Defined.

(** ** Comparisons that cannot throw *)

Lemma Beam_is_similar_to_scan_points_total (da db : BeamData) (wt dt : R) :
  exists r,
    Beam_is_similar_to_scan_points (Beam_obj da) (Beam_obj db) wt dt = Ok r.
Proof.
  unfold Beam_is_similar_to_scan_points.
  cbn [get_num_scan_points bind]. unfold Beam_get_num_scan_points.
  set (n := List.length (s0_at_scan_points_ da)).
  set (m := List.length (s0_at_scan_points_ db)).
  destruct (n =? m)%nat eqn:Hnm; cbn [negb]; [ | exists false; reflexivity].
  apply Nat.eqb_eq in Hnm.
  apply for_each_scan_point_total. intros k Hk.
  unfold Beam_is_similar_to_scan_point. cbn [get_s0_at_scan_point].
  rewrite (Beam_get_s0_at_scan_point_nth da k) by (fold n; lia).
  rewrite (Beam_get_s0_at_scan_point_nth db k) by (fold m; lia).
  cbn [bind]. cbv zeta.
  repeat match goal with
         | |- context [if ?c then _ else _] => destruct c
         end; eexists; reflexivity.
Qed.

Lemma scan_then_static_total (scan static : result bool) :
  (exists r, scan = Ok r) -> (exists r, static = Ok r) ->
  exists r,
    (scan_ok <- scan ;; if negb scan_ok then Ok false else static) = Ok r.
Proof.
  intros [rs ->] [r ->]. destruct rs; [exists r | exists false]; reflexivity.
Qed.

(** X14. Comparing two monochromatic beams never throws, whatever their
    scan points: [==], [!=] and both overloads of [Beam::is_similar_to]
    return a boolean (every scan-point index they read is below both
    counts).  A polychromatic beam on the left never throws either, with
    any beam on the right. *)
Theorem comparisons_do_not_throw (da db : BeamData) (rhs : BeamBase)
    (t : tolerances) :
  (exists r, operator_eq (Beam_obj da) (Beam_obj db) = Ok r)
  /\ (exists r, operator_ne (Beam_obj da) (Beam_obj db) = Ok r)
  /\ (exists r, call_is_similar_to Beam_core (Beam_obj da) (Beam_obj db) t
                = Ok r)
  /\ (exists r, call_is_similar_to Beam_extended (Beam_obj da) (Beam_obj db) t
                = Ok r)
  /\ (exists r, operator_eq (PolychromaticBeam_obj da) rhs = Ok r)
  /\ (exists r, call_is_similar_to Polychromatic_core
                  (PolychromaticBeam_obj da) rhs t = Ok r)
  /\ (exists r, call_is_similar_to Polychromatic_extended
                  (PolychromaticBeam_obj da) rhs t = Ok r).
Proof.
  pose proof (Beam_operator_eq_total da db) as [r Hr].
  split; [exists r; exact Hr | ].
  split; [exists (negb r); unfold operator_ne; rewrite Hr; reflexivity | ].
  split; [ | split; [ | split; [ | split]]].
  - cbn [call_is_similar_to]. unfold Beam_is_similar_to_core.
    apply scan_then_static_total;
      [apply Beam_is_similar_to_scan_points_total | ].
    repeat (apply and_then_total; [ | eexists; reflexivity]).
    eexists; reflexivity.
  - cbn [call_is_similar_to]. unfold Beam_is_similar_to.
    apply scan_then_static_total;
      [apply Beam_is_similar_to_scan_points_total | ].
    repeat (apply and_then_total; [ | eexists; reflexivity]).
    eexists; reflexivity.
  - cbn [operator_eq]. apply PolychromaticBeam_operator_eq_total.
  - cbn [call_is_similar_to].
    unfold PolychromaticBeam_is_similar_to_core,
      PolychromaticBeam_is_similar_to.
    repeat (apply and_then_total; [ | eexists; reflexivity]).
    eexists; reflexivity.
  - cbn [call_is_similar_to]. unfold PolychromaticBeam_is_similar_to.
    repeat (apply and_then_total; [ | eexists; reflexivity]).
    eexists; reflexivity.
Qed.

(** ** The probe in the comparisons *)

Lemma Probe_eqb_true (p q : Probe) : Probe_eqb p q = true -> p = q.
Proof. destruct p, q; intros H; try reflexivity; discriminate. Qed.

(** X15. Beams of different probes are never equal: [==] of either
    class, the four-tolerance [Beam::is_similar_to] and both overloads of
    [PolychromaticBeam::is_similar_to] compare the probes exactly and never
    answer true when they differ, whatever the tolerances. *)
Theorem different_probes_never_equal (a b : BeamBase) (t : tolerances) :
  get_probe a <> get_probe b ->
  operator_eq a b <> Ok true
  /\ call_is_similar_to Beam_core a b t <> Ok true
  /\ call_is_similar_to Polychromatic_core a b t <> Ok true
  /\ call_is_similar_to Polychromatic_extended a b t <> Ok true.
Proof.
  intros Hne.
  assert (Hp : Ok (Probe_eqb (probe_ (data a)) (get_probe b)) <> Ok true).
  { intros H. injection H as H. apply Probe_eqb_true in H. apply Hne.
    exact H. }
  assert (Hpoly : PolychromaticBeam_operator_eq a b <> Ok true).
  { unfold PolychromaticBeam_operator_eq. rewrite !and_then_true.
    intros (_ & H). exact (Hp H). }
  split; [ | split; [ | split]].
  - destruct a as [da | da]; cbn [operator_eq]; [ | exact Hpoly].
    unfold Beam_operator_eq. rewrite scan_then_static_true.
    unfold Beam_operator_eq_static. rewrite !and_then_true.
    intros (_ & _ & H). exact (Hp H).
  - cbn [call_is_similar_to]. unfold Beam_is_similar_to_core.
    rewrite scan_then_static_true, !and_then_true.
    intros (_ & _ & H). exact (Hp H).
  - cbn [call_is_similar_to].
    unfold PolychromaticBeam_is_similar_to_core,
      PolychromaticBeam_is_similar_to.
    rewrite !and_then_true. intros (_ & H). exact (Hp H).
  - cbn [call_is_similar_to]. unfold PolychromaticBeam_is_similar_to.
    rewrite !and_then_true. intros (_ & H). exact (Hp H).
Qed.

Lemma different_probes_never_equal_witness :
  operator_eq (Beam_obj Beam_new) (Beam_obj (Beam_set_probe Beam_new electron))
  <> Ok true.
Proof.
  apply (different_probes_never_equal (Beam_obj Beam_new)
           (Beam_obj (Beam_set_probe Beam_new electron))
           (all_tolerances 1)).
  discriminate.
Defined.

(** X16. The nine-tolerance [Beam::is_similar_to] never looks at the probe:
    changing the probe of either beam, or of both, changes neither its
    answer nor the error it throws. *)
Theorem Beam_is_similar_to_ignores_probe (a b : BeamBase) (p q : Probe)
    (t : tolerances) :
  call_is_similar_to Beam_extended (set_probe a p) (set_probe b q) t
  = call_is_similar_to Beam_extended a b t.
Proof.
  destruct a as [da | da], b as [db | db]; reflexivity.
Qed.

(** ** Negative tolerances *)

Lemma Ok_Rleb_abs_negative (x tol : R) :
  tol < 0 -> Ok (Rleb (Rabs x) tol) <> Ok true.
Proof.
  intros Hneg H. injection H as H. apply Rleb_true_iff in H.
  pose proof (Rabs_pos x). lra.
Qed.

(** X17. A negative tolerance rejects everything: when the direction, the
    polarization-normal or the polarization-fraction tolerance is negative,
    no overload of [is_similar_to] answers true, not even for a beam
    compared with itself. *)
Theorem negative_tolerance_never_similar (o : overload) (a b : BeamBase)
    (t : tolerances) :
  direction_tolerance t < 0
  \/ polarization_normal_tolerance t < 0
  \/ polarization_fraction_tolerance t < 0 ->
  call_is_similar_to o a b t <> Ok true.
Proof.
  intros Hneg.
  destruct o; cbn [call_is_similar_to];
    unfold Beam_is_similar_to_core, Beam_is_similar_to,
      PolychromaticBeam_is_similar_to_core, PolychromaticBeam_is_similar_to;
    rewrite ?scan_then_static_true, !and_then_true; intros H;
    destruct Hneg as [Hn | [Hn | Hn]];
    repeat match goal with
           | Hc : _ /\ _ |- _ => destruct Hc
           end;
    match goal with
    | Hc : Ok (Rleb (Rabs _) ?tol) = Ok true, Hn : ?tol < 0 |- _ =>
        exact (Ok_Rleb_abs_negative _ _ Hn Hc)
    end.
Qed.

Lemma negative_tolerance_never_similar_witness :
  call_is_similar_to Beam_extended (Beam_obj Beam_new) (Beam_obj Beam_new)
    (mk_tolerances 1 (-1) 1 1 1 1 1 1 1) <> Ok true.
Proof.
  apply (negative_tolerance_never_similar Beam_extended (Beam_obj Beam_new)
           (Beam_obj Beam_new) (mk_tolerances 1 (-1) 1 1 1 1 1 1 1)).
  left. simpl. lra.
Defined.

(** ** Construction *)

(** X18. A construction profile succeeds exactly when its vector argument
    is not of length zero and, for the two profiles of [PolychromaticBeam]
    that take a sample-to-source distance, that distance is not negative;
    otherwise it fails an assertion.  The profiles without arguments always
    succeed, and no profile checks any other argument. *)
Theorem construct_succeeds_iff (c : constructor_call) :
  ((exists b, construct c = Ok b) <-> constructor_precondition c)
  /\ ((exists text, construct c = Throw (assertion_failure text))
      <-> ~ constructor_precondition c).
Proof.
  assert (Hgt : forall v, Rgtb (Vec3.length v) 0 = true <-> 0 < Vec3.length v)
    by (intros v; apply Rgtb_true_iff).
  assert (Hle : forall x, Rleb 0 x = true <-> 0 <= x)
    by (intros x; apply Rleb_true_iff).
  destruct c; cbn [construct constructor_precondition];
    unfold mono, poly, Beam_new_s0, Beam_new_direction,
      Beam_new_s0_divergence, Beam_new_direction_divergence, Beam_new_all,
      Beam_new_all_distance, PolychromaticBeam_new,
      PolychromaticBeam_new_direction,
      PolychromaticBeam_new_direction_distance,
      PolychromaticBeam_new_divergence, PolychromaticBeam_new_all,
      PolychromaticBeam_new_all_distance, Beam_set_direction,
      Beam_set_sample_to_source_distance;
    rewrite ?(assert_length_pos (mk_vec3 0 0 1))
      by (rewrite length_001; lra);
    cbn [bind];
    rewrite ?(assert_distance_nonneg 0) by lra;
    cbn [bind];
    repeat match goal with
           | |- context [DXTBX_ASSERT ?cond ?t] =>
               let E := fresh "E" in
               destruct cond eqn:E; cbn [DXTBX_ASSERT bind];
               [ first [apply Hgt in E | apply Hle in E]
               | assert (~ cond = true) by (rewrite E; discriminate);
                 rewrite ?Hgt, ?Hle in * ]
           end;
    first
      [ split; split;
        [ intros _; tauto
        | intros _; eexists; reflexivity
        | intros [text Ht]; discriminate Ht
        | tauto ]
      | split; split;
        [ intros [b0 Hb0]; discriminate Hb0
        | tauto
        | intros _; tauto
        | intros _; eexists; reflexivity ] ].
Qed.

Lemma construct_succeeds_iff_witness :
  (exists b, construct (new_PolychromaticBeam_direction_distance
                          (mk_vec3 0 0 1) 2) = Ok b)
  /\ (exists text,
        construct (new_PolychromaticBeam_direction_distance
                     (mk_vec3 0 0 1) (-2))
        = Throw (assertion_failure text)).
Proof.
  split.
  - apply (proj1 (construct_succeeds_iff
                    (new_PolychromaticBeam_direction_distance
                       (mk_vec3 0 0 1) 2))).
    simpl. rewrite length_001. lra.
  - apply (proj2 (construct_succeeds_iff
                    (new_PolychromaticBeam_direction_distance
                       (mk_vec3 0 0 1) (-2)))).
    simpl. lra.
Defined.

(** X19. The two shortest profiles of [PolychromaticBeam] that take a
    direction do not agree on the polarization fraction: for every
    direction of positive computed length, [PolychromaticBeam(direction)]
    stores 0.5 and [PolychromaticBeam(direction, 0.0)] stores 0.999, every
    other data member being the same, so the two beams are not strictly
    equal. *)
Theorem PolychromaticBeam_polarization_fraction_defaults (direction : vec3) :
  0 < Vec3.length direction ->
  exists d1 d2,
    PolychromaticBeam_new_direction direction = Ok d1
    /\ PolychromaticBeam_new_direction_distance direction 0 = Ok d2
    /\ polarization_fraction_ d1 = 0.5
    /\ d2 = upd_polarization_fraction d1 0.999
    /\ operator_eq (PolychromaticBeam_obj d1) (PolychromaticBeam_obj d2)
       = Ok false.
Proof.
  intros Hl.
  unfold PolychromaticBeam_new_direction,
    PolychromaticBeam_new_direction_distance,
    Beam_set_sample_to_source_distance.
  rewrite !(assert_length_pos direction _ Hl). cbn [bind].
  rewrite !(assert_distance_nonneg 0) by lra. cbn [bind].
  do 2 eexists. split; [reflexivity | ]. split; [reflexivity | ].
  split; [reflexivity | ]. split; [reflexivity | ].
  cbn [operator_eq]. unfold PolychromaticBeam_operator_eq.
  cbv [get_sample_to_source_direction get_polarization_normal
         get_polarization_fraction get_flux get_transmission
         get_divergence get_sigma_divergence
         get_sample_to_source_distance get_probe
         Beam_get_sample_to_source_direction Beam_get_polarization_normal
         Beam_get_polarization_fraction Beam_get_flux Beam_get_transmission
         Beam_get_divergence Beam_get_sigma_divergence
         Beam_get_sample_to_source_distance Beam_get_probe data
         Beam_set_probe Beam_set_transmission Beam_set_flux
         Beam_set_polarization_fraction Beam_set_polarization_normal
         Beam_set_sigma_divergence Beam_set_divergence
         upd_probe upd_transmission upd_flux upd_polarization_fraction
         upd_polarization_normal upd_sigma_divergence upd_divergence
         upd_sample_to_source_distance upd_direction Beam_new
         direction_ divergence_ sigma_divergence_ polarization_normal_
         polarization_fraction_ flux_ transmission_ probe_
         sample_to_source_distance_].
  assert (Hpf : Rleb (Rabs (0.5 - 0.999)) 1e-6 = false).
  { apply Rleb_false_iff. rewrite Rabs_left by lra. lra. }
  rewrite Hpf.
  assert (He : 0 <= 1e-6) by lra.
  rewrite !(Rleb_abs_diff_same _ _ He).
  repeat match goal with
         | |- context [Rleb ?a ?e] => destruct (Rleb a e)
         end;
    reflexivity.
Qed.

Lemma PolychromaticBeam_polarization_fraction_defaults_witness :
  exists d1 d2,
    PolychromaticBeam_new_direction (mk_vec3 0 0 1) = Ok d1
    /\ PolychromaticBeam_new_direction_distance (mk_vec3 0 0 1) 0 = Ok d2
    /\ polarization_fraction_ d1 = 0.5
    /\ polarization_fraction_ d2 = 0.999.
Proof.
  destruct (PolychromaticBeam_polarization_fraction_defaults (mk_vec3 0 0 1))
    as (d1 & d2 & H1 & H2 & H3 & H4 & _).
  - rewrite length_001. lra.
  - exists d1, d2. split; [exact H1 | ]. split; [exact H2 | ].
    split; [exact H3 | ]. rewrite H4. reflexivity.
Defined.

(** ** The two overloads of Beam::is_similar_to *)

(** X20. The nine-tolerance overload of [Beam::is_similar_to] is the
    four-tolerance one with more checks and without the probe: when it
    answers true and the two probes are equal, the four-tolerance overload
    answers true for the same first four tolerances. *)
Theorem Beam_extended_implies_core (a b : BeamBase) (t : tolerances) :
  get_probe a = get_probe b ->
  call_is_similar_to Beam_extended a b t = Ok true ->
  call_is_similar_to Beam_core a b t = Ok true.
Proof.
  intros Hp. cbn [call_is_similar_to].
  unfold Beam_is_similar_to, Beam_is_similar_to_core.
  rewrite !scan_then_static_true, !and_then_true.
  intros (Hscan & ((((((((H1 & H2) & H3) & H4) & _) & _) & _) & _) & _)).
  repeat split; try assumption.
  f_equal. unfold get_probe, Beam_get_probe in Hp. rewrite Hp.
  apply Probe_eqb_refl.
Qed.

Lemma Beam_extended_implies_core_witness :
  call_is_similar_to Beam_core (Beam_obj Beam_new) (Beam_obj Beam_new)
    (all_tolerances 0) = Ok true.
Proof.
  apply (Beam_extended_implies_core (Beam_obj Beam_new) (Beam_obj Beam_new)
           (all_tolerances 0)).
  - reflexivity.
  - exact Beam_new_similar_to_itself_zero.
Defined.

(** ** The sample-to-source distance *)

(** X21. The sample-to-source distance read from a beam is never negative,
    for a beam built by any construction profile of [PolychromaticBeam], or
    by any profile of [Beam] other than the ten-argument one given a
    negative distance, and then put through any operations of the
    interface: [set_sample_to_source_distance] refuses a negative value and
    leaves the distance as it was. *)
Theorem sample_to_source_distance_nonneg
    (rot : vec3 -> vec3 -> R -> vec3) (c : constructor_call)
    (ops : list operation) (b : BeamBase) (x : R) :
  distance_argument_checked c ->
  construct c = Ok b ->
  0 <= get_sample_to_source_distance (after_all rot b ops)
  /\ (x < 0 ->
      set_sample_to_source_distance (after_all rot b ops) x
      = Throw (assertion_failure "sample_to_source_distance >= 0.")).
Proof.
  intros Hc Hb. split.
  - exact (distance_nonneg_elsewhere rot c ops b Hc Hb).
  - intros Hx. unfold set_sample_to_source_distance, lift,
      Beam_set_sample_to_source_distance.
    rewrite assert_distance_neg by exact Hx. reflexivity.
Qed.

Lemma sample_to_source_distance_nonneg_witness :
  exists b,
    construct (new_PolychromaticBeam_direction_distance (mk_vec3 0 0 1) 5)
    = Ok b
    /\ 0 <= get_sample_to_source_distance
              (after_all (fun v _ _ => v) b
                 [op_set_sample_to_source_distance (-3);
                  op_set_sample_to_source_distance 2]).
Proof.
  destruct (construct
              (new_PolychromaticBeam_direction_distance (mk_vec3 0 0 1) 5))
    as [b | e] eqn:Hc.
  - exists b. split; [reflexivity | ].
    apply (sample_to_source_distance_nonneg (fun v _ _ => v)
             (new_PolychromaticBeam_direction_distance (mk_vec3 0 0 1) 5)
             [op_set_sample_to_source_distance (-3);
              op_set_sample_to_source_distance 2] b 0).
    + exact I.
    + exact Hc.
  - exfalso. revert Hc.
    unfold construct, poly, PolychromaticBeam_new_direction_distance,
      Beam_set_sample_to_source_distance.
    rewrite assert_length_pos by (rewrite length_001; lra). cbn [bind].
    rewrite assert_distance_nonneg by lra. discriminate.
Defined.
